(** * Compact knowledge-graph preprocessing: a shallow embedding of
      [KG_preprocessing.py] and the properties of its row validators, loaders,
      assembler and serializer. *)

From Stdlib Require Import String Ascii ZArith List Permutation Sorted.
From stdpp Require Import base option list gmap strings sorting pretty.

Local Open Scope string_scope.
Local Open Scope list_scope.

(** ** Python values used by the script *)

(** A [pathlib.PurePosixPath] is its tuple of parts; [Path(".")] has none and
    an absolute path starts with the part ["/"]. *)
Abbreviation Path := (list string).

(** One row yielded by [csv.DictReader]: column name to cell.  A cell is a
    string, or Python's [None] ([restval]) when the line is shorter than the
    header. *)
Abbreviation row := (gmap string (option string)).

(** [row.get(key)]: the cell, or [None] when the column is not there. *)
Definition get (r : row) (key : string) : option string :=
  match r !! key with
  | Some cell => cell
  | None => None
  end.

(** Truth value of a [str]: only the empty string is false. *)
Definition truthy (s : string) : bool :=
  match s with
  | "" => false
  | String _ _ => true
  end.

(** ** Exceptions and console output *)

Inductive exn :=
| ValueError (msg : string)
| OSError (p : Path)
| UnicodeDecodeError (msg : string)
| csv_Error (msg : string).

(** [except ValueError as exc]: whether the clause catches the exception,
    and [str(exc)] when it does.  [UnicodeDecodeError] is a subclass of
    [ValueError]. *)
Definition as_ValueError (e : exn) : option string :=
  match e with
  | ValueError msg | UnicodeDecodeError msg => Some msg
  | OSError _ | csv_Error _ => None
  end.

Inductive result (A : Type) :=
| Ok (a : A)
| Raise (e : exn).
Arguments Ok {A} a.
Arguments Raise {A} e.

(** A computation that prints lines and then returns or raises.  What was
    printed before an exception stays printed. *)
Record io (A : Type) := IO { stdout : list string; outcome : result A }.
Arguments IO {A} stdout outcome.
Arguments stdout {A} _.
Arguments outcome {A} _.

#[global] Instance io_ret : MRet io := fun A a => IO [] (Ok a).
#[global] Instance io_bind : MBind io := fun A B f m =>
  match outcome m with
  | Ok a => IO (stdout m ++ stdout (f a)) (outcome (f a))
  | Raise e => IO (stdout m) (Raise e)
  end.

Definition print (line : string) : io unit := IO [line] (Ok tt).
Definition raise {A} (e : exn) : io A := IO [] (Raise e).

(** ** Entities and their row validators *)

(** In each validator [not v] holds when the looked-up value is [None] or
    the empty string. *)

Module GeneNode.
Record t := mk { label : string }.

Definition missing : string := "Gene row is missing required 'label' column".

Definition from_row (r : row) : result t :=
  match get r "label" with
  | None => Raise (ValueError missing)
  | Some label =>
      if negb (truthy label) then Raise (ValueError missing)
      else Ok (mk label)
  end.

(** [gene.__dict__] *)
Definition fields (g : t) : list (string * string) := [("label", label g)].
End GeneNode.

Module TermNode.
Record t := mk { label : string }.

Definition missing : string := "Term row is missing required 'label' column".

Definition from_row (r : row) : result t :=
  match get r "label" with
  | None => Raise (ValueError missing)
  | Some label =>
      if negb (truthy label) then Raise (ValueError missing)
      else Ok (mk label)
  end.

(** [term.__dict__] *)
Definition fields (g : t) : list (string * string) := [("label", label g)].
End TermNode.

Module Edge.
Record t := mk { source_label : string; relation : string; target_label : string }.

Definition missing : string :=
  "Edge row is missing required 'source_label', 'relation', or 'target_label' column".

Definition from_row (r : row) : result t :=
  match get r "source_label", get r "relation", get r "target_label" with
  | Some source_label, Some relation, Some target_label =>
      if negb (truthy source_label) || negb (truthy relation)
         || negb (truthy target_label)
      then Raise (ValueError missing)
      else Ok (mk source_label relation target_label)
  | _, _, _ => Raise (ValueError missing)
  end.

(** [edge.__dict__] *)
Definition fields (e : t) : list (string * string) :=
  [("source_label", source_label e); ("relation", relation e);
   ("target_label", target_label e)].
End Edge.

(** ** Paths and the file system *)

(** A path that starts with one slash has the root ["/"], a path that starts
    with exactly two has the root ["//"]; three or more count as one. *)
Definition is_root (part : string) : bool :=
  bool_decide (part = "/") || bool_decide (part = "//").

(** [str(path)] *)
Definition path_str (p : Path) : string :=
  match p with
  | [] => "."
  | part :: rest =>
      if is_root part then part +:+ String.concat "/" rest
      else String.concat "/" p
  end.

Definition is_absolute (p : Path) : bool :=
  match p with
  | part :: _ => is_root part
  | [] => false
  end.

(** [path.parent]: the path without its last part; the root and [Path(".")]
    are their own parents. *)
Definition parent (p : Path) : Path :=
  match p with
  | [part] => if is_root part then [part] else []
  | _ => removelast p
  end.

(** The path itself and the directories above it, from the top down. *)
Fixpoint prefixes (p : Path) : list Path :=
  match p with
  | [] => []
  | part :: rest => [part] :: ((fun q => part :: q) <$> prefixes rest)
  end.

(** [a / b] *)
Definition joinpath (a b : Path) : Path :=
  if is_absolute b then b else a ++ b.

(** Order of paths: the order of Python lists of strings on the parts.  The
    first position where the parts differ decides; a proper prefix comes
    first. *)
Fixpoint path_leb (p q : Path) : bool :=
  match p, q with
  | [], _ => true
  | _ :: _, [] => false
  | a :: p', b :: q' => if decide (a = b) then path_leb p' q' else String.leb a b
  end.

Definition path_le (p q : Path) : Prop := path_leb p q = true.

#[global] Instance path_le_dec : RelDecision path_le.
Proof. intros p q. unfold path_le. apply _. Defined.

(** The disk as the script meets it.
    - [dirs]: for each directory, the names of its entries in the order the
      operating system lists them.
    - [csvs]: for each file that opens and reads to its end, the rows its
      [csv.DictReader] yields.
    - [torn]: for each file that opens but whose reading breaks off (a byte
      that is not UTF-8, a line the [csv] module refuses), the rows yielded
      before that and the exception raised then.
    - [denied]: for each path on which the system refuses the call that
      makes it a directory or the call that opens it for writing, the
      exception that call raises.
    A path in [csvs] is not looked up in [torn]; a path in neither cannot be
    opened for reading. *)
Record filesystem := FS {
  dirs : gmap Path (list string);
  csvs : gmap Path (list row);
  torn : gmap Path (list row * exn);
  denied : gmap Path exn
}.

Fixpoint ends_with (suffix s : string) : bool :=
  if decide (s = suffix) then true
  else match s with
       | "" => false
       | String _ s' => ends_with suffix s'
       end.

(** [dir.glob("*.csv")]: the entries whose name ends in [.csv], in listing
    order; nothing when [dir] is not a directory. *)
Definition glob_csv (fs : filesystem) (dir : Path) : list Path :=
  match dirs fs !! dir with
  | Some names =>
      (fun name => dir ++ [name]) <$> filter (fun name => ends_with ".csv" name) names
  | None => []
  end.

Definition sorted (paths : list Path) : list Path := merge_sort path_le paths.

(** A generator of rows, by what iterating it does: it yields [yields] one
    by one and then stops, or raises [raises] in place of stopping. *)
Record generator := Generator { yields : list row; raises : option exn }.

(** The file is opened at the first [next], so a file that cannot be opened
    raises before any row. *)
Definition _read_csv_rows (fs : filesystem) (file_path : Path) : generator :=
  match csvs fs !! file_path with
  | Some rows => Generator rows None
  | None =>
      match torn fs !! file_path with
      | Some (rows, e) => Generator rows (Some e)
      | None => Generator [] (Some (OSError file_path))
      end
  end.

(** [list(gen)]: all the rows, or the exception and no row. *)
Definition list_of (gen : generator) : io (list row) :=
  match raises gen with
  | None => mret (yields gen)
  | Some e => raise e
  end.

(** The [next] after the last row of a [for] loop over [gen]. *)
Definition exhaust (gen : generator) : io unit :=
  match raises gen with
  | None => mret tt
  | Some e => raise e
  end.

(** ** Loaders *)

Definition skip_message (kind : string) (idx : nat) (file_path : Path) (exc : string)
  : string :=
  "Skipping invalid " +:+ kind +:+ " row #" +:+ pretty idx +:+ " in "
  +:+ path_str file_path +:+ ": " +:+ exc.

Section Loaders.
Context {A : Type} (from_row : row -> result A) (kind : string).

(** The loop [for idx, row in enumerate(rows, start=idx)] with its
    [try]/[except ValueError] body; [acc] is the list being appended to. *)
Fixpoint load_rows (file_path : Path) (idx : nat) (rows : list row) (acc : list A)
  : io (list A) :=
  match rows with
  | [] => mret acc
  | r :: rows' =>
      match from_row r with
      | Ok entity => load_rows file_path (S idx) rows' (acc ++ [entity])
      | Raise e =>
          match as_ValueError e with
          | Some exc =>
              print (skip_message kind idx file_path exc);;
              load_rows file_path (S idx) rows' acc
          | None => raise e
          end
      end
  end.

(** The loop [for file_path in files] of the directory loaders.  The rows
    of a file are validated as the generator yields them, so what breaks the
    reading of a file comes after the rows before it have been handled. *)
Fixpoint load_files (fs : filesystem) (files : list Path) (acc : list A)
  : io (list A) :=
  match files with
  | [] => mret acc
  | file_path :: files' =>
      let gen := _read_csv_rows fs file_path in
      acc' ← load_rows file_path 1 (yields gen) acc;
      exhaust gen;;
      load_files fs files' acc'
  end.
End Loaders.

Definition load_gene_nodes (fs : filesystem) (gene_node_path : Path)
  : io (list GeneNode.t) :=
  rows ← list_of (_read_csv_rows fs gene_node_path);
  load_rows GeneNode.from_row "gene" gene_node_path 1 rows [].

Definition load_term_nodes (fs : filesystem) (term_dir : Path)
  : io (list TermNode.t) :=
  let term_files := sorted (glob_csv fs term_dir) in
  load_files TermNode.from_row "term" fs term_files [].

Definition load_edges (fs : filesystem) (edge_dir : Path) : io (list Edge.t) :=
  let edge_files := sorted (glob_csv fs edge_dir) in
  load_files Edge.from_row "edge" fs edge_files [].

(** ** Assembling the payload *)

(** The values [json.dump] is given: integers, strings, lists, and
    dictionaries as key/value lists in insertion order. *)
#[warnings="-register-all"]
Inductive json :=
| JInt (n : Z)
| JStr (s : string)
| JList (items : list json)
| JDict (items : list (string * json)).

(** [d[key] = value] on an ordered dictionary: a new key goes last, an
    existing key keeps its place. *)
Fixpoint setitem (d : list (string * json)) (key : string) (value : json)
  : list (string * json) :=
  match d with
  | [] => [(key, value)]
  | (k, v) :: d' =>
      if decide (k = key) then (k, value) :: d'
      else (k, v) :: setitem d' key value
  end.

(** [d.get(key)] *)
Fixpoint getitem (d : list (string * json)) (key : string) : option json :=
  match d with
  | [] => None
  | (k, v) :: d' => if decide (k = key) then Some v else getitem d' key
  end.

(** An instance's [__dict__] as a value to serialize. *)
Definition as_dict (fields : list (string * string)) : json :=
  JDict ((fun kv => (kv.1, JStr kv.2)) <$> fields).

Definition build_knowledge_graph
  (gene_nodes : list GeneNode.t) (term_nodes : list TermNode.t) (edges : list Edge.t)
  : list (string * json) :=
  let payload := [] in
  let payload := setitem payload "counts"
    (JDict [("genes", JInt (Z.of_nat (length gene_nodes)));
            ("terms", JInt (Z.of_nat (length term_nodes)));
            ("triples", JInt (Z.of_nat (length edges)))]) in
  let payload := setitem payload "genes"
    (JList ((fun gene => as_dict (GeneNode.fields gene)) <$> gene_nodes)) in
  let payload := setitem payload "terms"
    (JList ((fun term => as_dict (TermNode.fields term)) <$> term_nodes)) in
  let payload := setitem payload "triples"
    (JList ((fun edge => as_dict (Edge.fields edge)) <$> edges)) in
  payload.

(** ** Serializing: [json.dump(payload, f, ensure_ascii=False, indent=2)] *)

Definition dquote : ascii := "034"%char.

Definition hex_digit (n : N) : ascii :=
  ascii_of_N (if (n <? 10)%N then 48 + n else 87 + n).

(** One character of a string literal.  With [ensure_ascii=False] only the
    quote, the backslash and the control characters below 0x20 are escaped;
    bytes of multi-byte UTF-8 sequences pass through. *)
Definition escape_char (c : ascii) : string :=
  let n := N_of_ascii c in
  if decide (c = "\"%char) then "\\"
  else if decide (c = dquote) then String "\" (String dquote "")
  else if decide (n = 8%N) then "\b"
  else if decide (n = 12%N) then "\f"
  else if decide (n = 10%N) then "\n"
  else if decide (n = 13%N) then "\r"
  else if decide (n = 9%N) then "\t"
  else if (n <? 32)%N
       then "\u00" +:+ String (hex_digit (n / 16)) (String (hex_digit (n mod 16)) "")
  else String c "".

Fixpoint escape (s : string) : string :=
  match s with
  | "" => ""
  | String c s' => escape_char c +:+ escape s'
  end.

Definition encode_basestring (s : string) : string :=
  String dquote (escape s +:+ String dquote "").

Definition newline_indent (level : nat) : string :=
  String "010"%char (String.concat "" (replicate level "  ")).

Fixpoint encode (level : nat) (o : json) : string :=
  match o with
  | JInt n => pretty n
  | JStr s => encode_basestring s
  | JList [] => "[]"
  | JList items =>
      "[" +:+ newline_indent (S level)
      +:+ String.concat ("," +:+ newline_indent (S level))
            (List.map (encode (S level)) items)
      +:+ newline_indent level +:+ "]"
  | JDict [] => "{}"
  | JDict items =>
      "{" +:+ newline_indent (S level)
      +:+ String.concat ("," +:+ newline_indent (S level))
            (List.map (fun kv => encode_basestring kv.1 +:+ ": " +:+ encode (S level) kv.2)
               items)
      +:+ newline_indent level +:+ "}"
  end.

Definition json_dump (payload : list (string * json)) : string :=
  encode 0 (JDict payload).

(** ** The command-line entry point *)

Record args := Args {
  data_root : Path;
  gene_file : Path;
  term_dir : Path;
  edge_dir : Path;
  output : Path
}.

(** The defaults of [parse_args]. *)
Definition default_args : args :=
  Args ["data"] ["gene_node"; "Gene.nodes.csv"] ["term_node"] ["term_gene_edge"]
       ["compact_kg.json"].

(** What the model knows to be a regular file, and a directory. *)
Definition is_file (fs : filesystem) (p : Path) : bool :=
  bool_decide (is_Some (csvs fs !! p)) || bool_decide (is_Some (torn fs !! p)).

Definition is_dir (fs : filesystem) (p : Path) : bool :=
  bool_decide (is_Some (dirs fs !! p)).

(** [p.mkdir(parents=True, exist_ok=True)]: it raises when the system refuses
    or when [p] or a directory above it is a regular file; a directory that
    is there already is no error. *)
Definition mkdir (fs : filesystem) (p : Path) : io unit :=
  match denied fs !! p with
  | Some e => raise e
  | None => if existsb (is_file fs) (prefixes p) then raise (OSError p) else mret tt
  end.

(** [p.open("w", encoding="utf-8")]: it raises when the system refuses or
    when [p] is a directory. *)
Definition open_w (fs : filesystem) (p : Path) : io unit :=
  match denied fs !! p with
  | Some e => raise e
  | None => if is_dir fs p then raise (OSError p) else mret tt
  end.

(** [main] returns the path of the output file and the text [json.dump]
    writes to it. *)
Definition main (fs : filesystem) (a : args) : io (Path * string) :=
  let gene_file :=
    if is_absolute (gene_file a) then gene_file a
    else joinpath (data_root a) (gene_file a) in
  let term_dir :=
    if is_absolute (term_dir a) then term_dir a
    else joinpath (data_root a) (term_dir a) in
  let edge_dir :=
    if is_absolute (edge_dir a) then edge_dir a
    else joinpath (data_root a) (edge_dir a) in
  gene_nodes ← load_gene_nodes fs gene_file;
  term_nodes ← load_term_nodes fs term_dir;
  edges ← load_edges fs edge_dir;
  let kg_payload := build_knowledge_graph gene_nodes term_nodes edges in
  let output_path :=
    if is_absolute (output a) then output a
    else joinpath (data_root a) (output a) in
  mkdir fs (parent output_path);;
  open_w fs output_path;;
  let text := json_dump kg_payload in
  print ("Compact knowledge graph written to " +:+ path_str output_path);;
  mret (output_path, text).

(** ** The three kinds side by side *)

(** The three classes share one shape; the properties below are stated once,
    for a kind [k]. *)
Inductive kind := Gene | Term | Triple.

#[global] Instance kind_eq_dec : EqDecision kind.
Proof. solve_decision. Defined.

Definition entity (k : kind) : Type :=
  match k with
  | Gene => GeneNode.t
  | Term => TermNode.t
  | Triple => Edge.t
  end.

Definition from_row (k : kind) : row -> result (entity k) :=
  match k with
  | Gene => GeneNode.from_row
  | Term => TermNode.from_row
  | Triple => Edge.from_row
  end.

Definition fields (k : kind) : entity k -> list (string * string) :=
  match k with
  | Gene => GeneNode.fields
  | Term => TermNode.fields
  | Triple => Edge.fields
  end.

(** The columns each [from_row] looks up. *)
Definition required (k : kind) : list string :=
  match k with
  | Gene => ["label"]
  | Term => ["label"]
  | Triple => ["source_label"; "relation"; "target_label"]
  end.

(** The word for the kind in the loaders' messages. *)
Definition kind_word (k : kind) : string :=
  match k with
  | Gene => "gene"
  | Term => "term"
  | Triple => "edge"
  end.

(** The word for the kind in the validators' messages. *)
Definition kind_name (k : kind) : string :=
  match k with
  | Gene => "Gene"
  | Term => "Term"
  | Triple => "Edge"
  end.

Definition missing (k : kind) : string :=
  match k with
  | Gene => GeneNode.missing
  | Term => TermNode.missing
  | Triple => Edge.missing
  end.

Definition load (k : kind) : filesystem -> Path -> io (list (entity k)) :=
  match k with
  | Gene => load_gene_nodes
  | Term => load_term_nodes
  | Triple => load_edges
  end.

(** The files a loader opens, in the order it opens them. *)
Definition source_files (k : kind) (fs : filesystem) (p : Path) : list Path :=
  match k with
  | Gene => [p]
  | Term | Triple => sorted (glob_csv fs p)
  end.

(** ** Vocabulary of the properties *)

(** The entities of the rows that pass validation, in row order. *)
Definition entities (k : kind) (rows : list row) : list (entity k) :=
  omap (fun r => match from_row k r with Ok e => Some e | Raise _ => None end) rows.

(** The rows of a file that reads to its end; none otherwise. *)
Definition rows_of (fs : filesystem) (file_path : Path) : list row :=
  default [] (csvs fs !! file_path).

(** The file opens and reads to its end. *)
Definition readable (fs : filesystem) (file_path : Path) : Prop :=
  is_Some (csvs fs !! file_path).

(** The diagnostics of the rows of one file that fail validation, the first
    row being number [idx]. *)
Fixpoint diagnostics (k : kind) (file_path : Path) (idx : nat) (rows : list row)
  : list string :=
  match rows with
  | [] => []
  | r :: rows' =>
      match from_row k r with
      | Raise (ValueError exc) =>
          skip_message (kind_word k) idx file_path exc
          :: diagnostics k file_path (S idx) rows'
      | _ => diagnostics k file_path (S idx) rows'
      end
  end.

(** Replacing the rows of one file. *)
Definition write_rows (fs : filesystem) (file_path : Path) (rows : list row)
  : filesystem :=
  FS (dirs fs) (<[file_path := rows]> (csvs fs)) (torn fs) (denied fs).

(** The part of a directory loader's result that comes from one file. *)
Definition segment (k : kind) (fs : filesystem) (dir : Path) (name : string)
  : list (entity k) :=
  entities k (rows_of fs (dir ++ [name])).

(** The names a directory loader reads, in the order it reads them. *)
Definition csv_names (names : list string) : list string :=
  merge_sort String.le (filter (fun name => ends_with ".csv" name) names).


(** [payload["counts"][key]] *)
Definition count (payload : list (string * json)) (key : string) : option json :=
  match getitem payload "counts" with
  | Some (JDict counts) => getitem counts key
  | _ => None
  end.

(** What [not v] tests in the validators: the lookup gave [None] or the
    empty string. *)
Definition falsy (v : option string) : Prop := v = None \/ v = Some "".

(** Python's [str.isspace] on ASCII text, and a string that [strip()] would
    empty. *)
Definition is_space (c : ascii) : bool :=
  let n := N_of_ascii c in
  ((9 <=? n) && (n <=? 13) || (n =? 32) || ((28 <=? n) && (n <=? 31)))%N.

Fixpoint whitespace_only (s : string) : bool :=
  match s with
  | "" => true
  | String c s' => is_space c && whitespace_only s'
  end.

(** [needle in haystack] *)
Fixpoint contains (needle haystack : string) : bool :=
  String.prefix needle haystack
  || match haystack with
     | "" => false
     | String _ h' => contains needle h'
     end.

(** A small data directory used by the examples below. *)
Definition demo_fs : filesystem :=
  FS {[ ["data"; "term_node"] := ["b.csv"; "notes.txt"; "a.csv"];
        ["data"; "term_gene_edge"] := ["edges.csv"] ]}
     {[ ["data"; "gene_node"; "Gene.nodes.csv"] :=
          [ {[ "label" := Some "TP53" ]}; {[ "label" := Some "" ]};
            {[ "label" := Some "BRCA1" ]} ];
        ["data"; "term_node"; "a.csv"] := [ {[ "label" := Some "GO:001" ]} ];
        ["data"; "term_node"; "b.csv"] :=
          [ {[ "id" := Some "7" ]}; {[ "label" := Some "GO:002" ]} ];
        ["data"; "term_gene_edge"; "edges.csv"] :=
          [ {[ "source_label" := Some "GO:001"; "relation" := Some "";
               "target_label" := Some "TP53" ]};
            {[ "source_label" := Some "GO:001"; "relation" := Some "annotates";
               "target_label" := Some "TP53" ]} ] ]}
     ∅ ∅.


Definition demo_gene_path : Path := ["data"; "gene_node"; "Gene.nodes.csv"].
Definition demo_term_dir : Path := ["data"; "term_node"].

(** Single rows: a label of one space, an empty label, and an edge whose
    texts carry spaces and mixed case next to a column nobody asks for. *)
Definition blank_row : row := {[ "label" := Some " " ]}.
Definition empty_row : row := {[ "label" := Some "" ]}.
Definition mixed_row : row :=
  {[ "source_label" := Some " go:001 "; "relation" := Some "Annotates";
     "target_label" := Some "tp53"; "weight" := Some "3" ]}.

(** ** More vocabulary *)

(** A path argument of [main] after [p if p.is_absolute() else data_root / p]. *)
Definition resolve (a : args) (p : Path) : Path :=
  if is_absolute p then p else joinpath (data_root a) p.

(** The output file can be written: nothing refuses its directory or the
    file, no regular file stands where a directory is needed, and the output
    path is not a directory. *)
Definition writable (fs : filesystem) (out : Path) : Prop :=
  denied fs !! parent out = None
  /\ existsb (is_file fs) (prefixes (parent out)) = false
  /\ denied fs !! out = None
  /\ is_dir fs out = false.

(** What a loader has printed for a file when the reading of that file
    fails: the gene loader reads the whole file first and has printed
    nothing; a directory loader has handled the rows yielded before. *)
Definition printed_of_failing (k : kind) (fs : filesystem) (f : Path) : list string :=
  match k with
  | Gene => []
  | Term | Triple => diagnostics k f 1 (yields (_read_csv_rows fs f))
  end.

(** The line [main] prints last. *)
Definition written_line (a : args) : string :=
  "Compact knowledge graph written to " +:+ path_str (resolve a (output a)).

(** The files one run of [main] opens, in the order it opens them. *)
Definition all_source_files (fs : filesystem) (a : args) : list Path :=
  source_files Gene fs (resolve a (gene_file a))
  ++ source_files Term fs (resolve a (term_dir a))
  ++ source_files Triple fs (resolve a (edge_dir a)).

(** The lines a loader prints for the rows of its files. *)
Definition all_diagnostics (k : kind) (fs : filesystem) (p : Path) : list string :=
  concat ((fun f => diagnostics k f 1 (rows_of fs f)) <$> source_files k fs p).

(** The entities a loader returns for the rows of its files. *)
Definition all_entities (k : kind) (fs : filesystem) (p : Path) : list (entity k) :=
  concat ((fun f => entities k (rows_of fs f)) <$> source_files k fs p).

(** A character the serializer writes as it is. *)
Definition plain (c : ascii) : bool :=
  (32 <=? N_of_ascii c)%N && negb (Ascii.eqb c dquote) && negb (Ascii.eqb c "\"%char).

(** Reading back the first character of an escaped text: the inverse of
    [escape_char], used to show that escaping loses nothing. *)
Definition unhex (c : ascii) : N :=
  let n := N_of_ascii c in
  if (n <? 58)%N then (n - 48)%N else (n - 87)%N.

Definition read_escaped (s : string) : option (ascii * string) :=
  match s with
  | "" => None
  | String c rest =>
      if Ascii.eqb c "\"%char then
        match rest with
        | String "u"%char (String _ (String _ (String h1 (String h2 rest')))) =>
            Some (ascii_of_N (16 * unhex h1 + unhex h2), rest')
        | String "b"%char rest' => Some ("008"%char, rest')
        | String "f"%char rest' => Some ("012"%char, rest')
        | String "n"%char rest' => Some ("010"%char, rest')
        | String "r"%char rest' => Some ("013"%char, rest')
        | String "t"%char rest' => Some ("009"%char, rest')
        | String x rest' => Some (x, rest')
        | "" => None
        end
      else Some (c, rest)
  end.

(** ** The ranked-list script: [parse_gene_symbols] of [generate_input.py] *)

Section RankedList.
(** [str.strip], and the rows of
    [csv.DictReader(tsv_text.splitlines(), delimiter=TAB)]. *)
Variable strip : string -> string.
Variable DictReader : string -> list row.

(** [v or ""] *)
Definition or_empty (v : option string) : string :=
  match v with
  | Some s => if truthy s then s else ""
  | None => ""
  end.

(** The body of the loop over the rows; [genes] is the list being appended
    to and [n_total] the counter. *)
Fixpoint parse_rows (protein_coding_only : bool) (rows : list row)
  (genes : list string) (n_total : nat) : list string * nat :=
  match rows with
  | [] => (genes, n_total)
  | r :: rows' =>
      let n_total := S n_total in
      let symbol := strip (or_empty (get r "symbol")) in
      let status := strip (or_empty (get r "status")) in
      if negb (truthy symbol) then parse_rows protein_coding_only rows' genes n_total
      else if negb (String.eqb status "Approved")
      then parse_rows protein_coding_only rows' genes n_total
      else if protein_coding_only
              && negb (String.eqb (strip (or_empty (get r "locus_group")))
                         "protein-coding gene")
      then parse_rows protein_coding_only rows' genes n_total
      else parse_rows protein_coding_only rows' (genes ++ [symbol]) n_total
  end.

Definition parsed_line (n_genes : nat) (protein_coding_only : bool) (n_total : nat)
  : string :=
  "[INFO] Parsed " +:+ pretty n_genes +:+ " genes ("
  +:+ (if protein_coding_only then "protein-coding only" else "all Approved")
  +:+ ") from " +:+ pretty n_total +:+ " rows.".

Definition parse_gene_symbols (tsv_text : string) (protein_coding_only : bool)
  : io (list string) :=
  let reader := DictReader tsv_text in
  let result := parse_rows protein_coding_only reader [] 0 in
  print (parsed_line (length result.1) protein_coding_only result.2);;
  mret result.1.

End RankedList.

(** A stand-in for [str.strip] on examples: it drops spaces at both ends. *)
Fixpoint lstrip_spaces (s : string) : string :=
  match s with
  | String " "%char s' => lstrip_spaces s'
  | _ => s
  end.

Definition strip_spaces (s : string) : string :=
  String.rev (lstrip_spaces (String.rev (lstrip_spaces s))).

(** Rows of a small catalog, used by the examples. *)
Definition demo_catalog : list row :=
  [ {[ "symbol" := Some " TP53 "; "status" := Some "Approved";
       "locus_group" := Some "protein-coding gene" ]};
    {[ "symbol" := Some "  "; "status" := Some "Approved" ]};
    {[ "symbol" := Some "MIR21"; "status" := Some "Approved";
       "locus_group" := Some "non-coding RNA" ]};
    {[ "symbol" := Some "OLD1"; "status" := Some "Entry Withdrawn" ]} ].

(** Arguments of [main] with every path absolute, and a row like
    [mixed_row] without the extra column. *)
Definition absolute_args : args :=
  Args ["elsewhere"] ["/"; "data"; "gene_node"; "Gene.nodes.csv"]
       ["/"; "data"; "term_node"] ["//"; "data"; "term_gene_edge"]
       ["//"; "srv"; "kg.json"].

Definition mixed_row_bare : row :=
  {[ "source_label" := Some " go:001 "; "relation" := Some "Annotates";
     "target_label" := Some "tp53" ]}.

(** A data directory whose second term file cannot be opened, and one
    where the reading of that file breaks off after its first row. *)
Definition broken_fs : filesystem :=
  FS (dirs demo_fs) (delete ["data"; "term_node"; "b.csv"] (csvs demo_fs)) ∅ ∅.

Definition torn_fs : filesystem :=
  FS (dirs demo_fs) (delete ["data"; "term_node"; "b.csv"] (csvs demo_fs))
     {[ ["data"; "term_node"; "b.csv"] :=
          ([ {[ "id" := Some "7" ]} ], UnicodeDecodeError "invalid start byte") ]}
     ∅.

(** Arguments that send the output to the term directory. *)
Definition output_on_directory : args :=
  Args ["data"] ["gene_node"; "Gene.nodes.csv"] ["term_node"] ["term_gene_edge"]
       ["term_node"].

(** * Properties *)

(** ** Sanity checks on concrete inputs *)

Example gene_ok :
  GeneNode.from_row {[ "label" := Some "TP53" ]} = Ok (GeneNode.mk "TP53").
Proof. reflexivity. Qed.

Example gene_empty :
  GeneNode.from_row {[ "label" := Some "" ]} = Raise (ValueError GeneNode.missing).
Proof. reflexivity. Qed.

Example edge_empty_relation :
  Edge.from_row {[ "source_label" := Some "GO:001"; "relation" := Some "";
                   "target_label" := Some "TP53" ]}
  = Raise (ValueError Edge.missing).
Proof. reflexivity. Qed.

Example demo_genes :
  load_gene_nodes demo_fs ["data"; "gene_node"; "Gene.nodes.csv"]
  = IO ["Skipping invalid gene row #2 in data/gene_node/Gene.nodes.csv: Gene row is missing required 'label' column"]
       (Ok [GeneNode.mk "TP53"; GeneNode.mk "BRCA1"]).
Proof. vm_compute. reflexivity. Qed.

Example demo_terms :
  outcome (load_term_nodes demo_fs ["data"; "term_node"])
  = Ok [TermNode.mk "GO:001"; TermNode.mk "GO:002"].
Proof. vm_compute. reflexivity. Qed.

Example demo_missing_gene_file :
  outcome (main (FS ∅ ∅ ∅ ∅) default_args)
  = Raise (OSError ["data"; "gene_node"; "Gene.nodes.csv"]).
Proof. vm_compute. reflexivity. Qed.

Example escape_control : escape (String "001"%char "a\b") = "\u0001a\\b".
Proof. reflexivity. Qed.

Example encode_nested :
  encode 0 (JList [JInt 12; JList []; JDict []; JList [JInt (-3)]])
  = "[
  12,
  [],
  {},
  [
    -3
  ]
]".
Proof. vm_compute. reflexivity. Qed.

Example demo_main_prints :
  stdout (main demo_fs default_args)
  = ["Skipping invalid gene row #2 in data/gene_node/Gene.nodes.csv: Gene row is missing required 'label' column";
     "Skipping invalid term row #1 in data/term_node/b.csv: Term row is missing required 'label' column";
     "Skipping invalid edge row #1 in data/term_gene_edge/edges.csv: Edge row is missing required 'source_label', 'relation', or 'target_label' column";
     "Compact knowledge graph written to data/compact_kg.json"].
Proof. vm_compute. reflexivity. Qed.

Example demo_main_counts :
  exists genes terms edges,
    outcome (main demo_fs default_args)
    = Ok (["data"; "compact_kg.json"],
          json_dump (build_knowledge_graph genes terms edges))
    /\ (length genes, length terms, length edges) = (2, 2, 1)%nat.
Proof.
  exists [GeneNode.mk "TP53"; GeneNode.mk "BRCA1"],
    [TermNode.mk "GO:001"; TermNode.mk "GO:002"],
    [Edge.mk "GO:001" "annotates" "TP53"].
  split; vm_compute; reflexivity.
Qed.

Example path_order :
  sorted [["d"; "b.csv"]; ["d"; "a.csv"]; ["d"; "B.csv"]; ["d"; "a-1.csv"]]
  = [["d"; "B.csv"]; ["d"; "a-1.csv"]; ["d"; "a.csv"]; ["d"; "b.csv"]].
Proof. vm_compute. reflexivity. Qed.

(** ** Row validators *)

Lemma gene_from_row_cases (r : row) :
  (falsy (get r "label") /\ GeneNode.from_row r = Raise (ValueError GeneNode.missing))
  \/ (exists s, s <> "" /\ get r "label" = Some s
                /\ GeneNode.from_row r = Ok (GeneNode.mk s)).
Proof.
  unfold GeneNode.from_row, falsy.
  destruct (get r "label") as [[|c s]|]; simpl; eauto.
  right. exists (String c s). done.
Qed.

Lemma term_from_row_cases (r : row) :
  (falsy (get r "label") /\ TermNode.from_row r = Raise (ValueError TermNode.missing))
  \/ (exists s, s <> "" /\ get r "label" = Some s
                /\ TermNode.from_row r = Ok (TermNode.mk s)).
Proof.
  unfold TermNode.from_row, falsy.
  destruct (get r "label") as [[|c s]|]; simpl; eauto.
  right. exists (String c s). done.
Qed.

Lemma edge_from_row_cases (r : row) :
  ((falsy (get r "source_label") \/ falsy (get r "relation")
    \/ falsy (get r "target_label"))
   /\ Edge.from_row r = Raise (ValueError Edge.missing))
  \/ (exists s rel tg, s <> "" /\ rel <> "" /\ tg <> ""
        /\ get r "source_label" = Some s /\ get r "relation" = Some rel
        /\ get r "target_label" = Some tg
        /\ Edge.from_row r = Ok (Edge.mk s rel tg)).
Proof.
  unfold Edge.from_row, falsy.
  destruct (get r "source_label") as [[|c1 s]|]; simpl; eauto 6;
    destruct (get r "relation") as [[|c2 rel]|]; simpl; eauto 6;
    destruct (get r "target_label") as [[|c3 tg]|]; simpl; eauto 6.
  right. exists (String c1 s), (String c2 rel), (String c3 tg).
  repeat split; done.
Qed.

(** The only exception a validator raises is its own [ValueError]. *)
Lemma from_row_raise (k : kind) (r : row) (e : exn) :
  from_row k r = Raise e -> e = ValueError (missing k).
Proof.
  destruct k; simpl.
  - destruct (gene_from_row_cases r) as [[_ ->]|(s & _ & _ & ->)]; congruence.
  - destruct (term_from_row_cases r) as [[_ ->]|(s & _ & _ & ->)]; congruence.
  - destruct (edge_from_row_cases r)
      as [[_ ->]|(s & rel & tg & _ & _ & _ & _ & _ & _ & ->)]; congruence.
Qed.

Lemma from_row_total (k : kind) (r : row) :
  (exists e, from_row k r = Ok e) \/ from_row k r = Raise (ValueError (missing k)).
Proof.
  destruct (from_row k r) as [e|e] eqn:E; [eauto|].
  right. by rewrite (from_row_raise k r e E).
Qed.

(** C1, as the code has it: a row is rejected exactly when one of the
    required columns of its kind is absent, holds no value, or holds the
    empty string.  Any other text, text made of white space included, is
    accepted. *)
Theorem from_row_rejects_iff (k : kind) (r : row) :
  (exists msg, from_row k r = Raise (ValueError msg))
  <-> (exists f, f ∈ required k /\ (get r f = None \/ get r f = Some "")).
Proof.
  destruct k; simpl.
  - destruct (gene_from_row_cases r) as [[H ->]|(s & Hs & Hg & ->)].
    + split; [intros _; exists "label"; split; [by left|exact H]|eauto].
    + split; [intros [? ?]; done|].
      intros (f & ->%list_elem_of_singleton & [?|?]); congruence.
  - destruct (term_from_row_cases r) as [[H ->]|(s & Hs & Hg & ->)].
    + split; [intros _; exists "label"; split; [by left|exact H]|eauto].
    + split; [intros [? ?]; done|].
      intros (f & ->%list_elem_of_singleton & [?|?]); congruence.
  - destruct (edge_from_row_cases r)
      as [[H ->]|(s & rel & tg & Hs & Hr & Ht & Hgs & Hgr & Hgt & ->)].
    + split; [intros _|eauto].
      destruct H as [H|[H|H]];
        [exists "source_label"|exists "relation"|exists "target_label"];
        (split; [repeat first [by left|right]|exact H]).
    + split; [intros [? ?]; done|].
      intros (f & Hf & Hm).
      repeat (apply elem_of_cons in Hf as [->|Hf]);
        [..|by apply elem_of_nil in Hf]; destruct Hm; congruence.
Qed.

(** C1, as the specification words it, fails: a label of one space is white space
    only, yet the validator accepts it and the loader returns it. *)
Lemma whitespace_label_accepted :
  whitespace_only " " = true
  /\ get blank_row "label" = Some " "
  /\ from_row Gene blank_row = Ok (GeneNode.mk " ")
  /\ load Gene (FS ∅ {[ demo_gene_path := [blank_row] ]} ∅ ∅) demo_gene_path
     = IO [] (Ok [GeneNode.mk " "]).
Proof. vm_compute. done. Qed.

(** C3: when validation succeeds, every field of the entity is the text of
    the column of the same name, unchanged; the entity has one field per
    required column and no other. *)
Theorem from_row_verbatim (k : kind) (r : row) (e : entity k) :
  from_row k r = Ok e ->
  (fields k e).*1 = required k
  /\ Forall (fun kv => get r kv.1 = Some kv.2) (fields k e).
Proof.
  destruct k; simpl in *.
  - destruct (gene_from_row_cases r) as [[_ ->]|(s & _ & Hg & ->)]; [done|].
    intros [= <-]. split; [done|]. repeat constructor; done.
  - destruct (term_from_row_cases r) as [[_ ->]|(s & _ & Hg & ->)]; [done|].
    intros [= <-]. split; [done|]. repeat constructor; done.
  - destruct (edge_from_row_cases r)
      as [[_ ->]|(s & rel & tg & _ & _ & _ & Hgs & Hgr & Hgt & ->)]; [done|].
    intros [= <-]. split; [done|]. repeat constructor; done.
Qed.

Lemma from_row_verbatim_witness :
  from_row Triple mixed_row = Ok (Edge.mk " go:001 " "Annotates" "tp53")
  /\ Forall (fun kv => get mixed_row kv.1 = Some kv.2)
        (fields Triple (Edge.mk " go:001 " "Annotates" "tp53")).
Proof.
  assert (H : from_row Triple mixed_row = Ok (Edge.mk " go:001 " "Annotates" "tp53"))
    by (vm_compute; reflexivity).
  split; [exact H|]. exact (proj2 (from_row_verbatim Triple mixed_row _ H)).
Defined.

(** ** The output monad *)

Lemma bind_ok {A B} (log : list string) (a : A) (f : A -> io B) :
  IO log (Ok a) ≫= f = IO (log ++ stdout (f a)) (outcome (f a)).
Proof. reflexivity. Qed.

Lemma bind_raised {A B} (log : list string) (e : exn) (f : A -> io B) :
  IO log (Raise e) ≫= f = IO log (Raise e).
Proof. reflexivity. Qed.

Lemma io_eta {A} (m : io A) : IO (stdout m) (outcome m) = m.
Proof. by destruct m. Qed.

(** ** One file *)

Lemma entities_cons_ok (k : kind) (r : row) (rows : list row) (e : entity k) :
  from_row k r = Ok e -> entities k (r :: rows) = e :: entities k rows.
Proof. unfold entities. simpl. by intros ->. Qed.

Lemma entities_cons_raise (k : kind) (r : row) (rows : list row) (e : exn) :
  from_row k r = Raise e -> entities k (r :: rows) = entities k rows.
Proof. unfold entities. simpl. by intros ->. Qed.

Lemma entities_app (k : kind) (rows1 rows2 : list row) :
  entities k (rows1 ++ rows2) = entities k rows1 ++ entities k rows2.
Proof. apply omap_app. Qed.

(** The loop over the rows of a file never raises: it prints one line per
    rejected row and appends the accepted ones in order. *)
Lemma load_rows_spec (k : kind) (p : Path) (rows : list row) :
  forall (idx : nat) (acc : list (entity k)),
    load_rows (from_row k) (kind_word k) p idx rows acc
    = IO (diagnostics k p idx rows) (Ok (acc ++ entities k rows)).
Proof.
  induction rows as [|r rows IH]; intros idx acc; cbn [load_rows diagnostics].
  - unfold mret, io_ret. by rewrite app_nil_r.
  - destruct (from_row k r) as [e|e] eqn:E.
    + rewrite IH, (entities_cons_ok k r rows e E).
      by rewrite <- app_assoc.
    + rewrite (entities_cons_raise k r rows e E).
      rewrite (from_row_raise k r e E), IH. reflexivity.
Qed.

(** Every row gives one entity or one diagnostic. *)
Lemma row_once (k : kind) (p : Path) (idx : nat) (r : row) :
  length (entities k [r]) + length (diagnostics k p idx [r]) = 1.
Proof.
  unfold entities. simpl.
  destruct (from_row k r) as [e|e] eqn:E; [done|].
  by rewrite (from_row_raise k r e E).
Qed.

Lemma diagnostics_cons (k : kind) (p : Path) (idx : nat) (r : row) (rows : list row) :
  diagnostics k p idx (r :: rows)
  = diagnostics k p idx [r] ++ diagnostics k p (S idx) rows.
Proof. simpl. destruct (from_row k r) as [e|[]]; reflexivity. Qed.

Lemma diagnostics_by_row (k : kind) (p : Path) (rows : list row) :
  forall idx,
    diagnostics k p idx rows
    = concat (imap (fun i r => diagnostics k p (idx + i) [r]) rows).
Proof.
  induction rows as [|r rows IH]; intros idx; [done|].
  rewrite diagnostics_cons, imap_cons. cbn [concat].
  rewrite Nat.add_0_r. f_equal. rewrite IH. f_equal.
  apply imap_ext. intros i x _. simpl. by rewrite Nat.add_succ_r.
Qed.

Lemma entities_by_row (k : kind) (rows : list row) :
  entities k rows = concat ((fun r => entities k [r]) <$> rows).
Proof.
  induction rows as [|r rows IH]; [done|].
  change (r :: rows) with ([r] ++ rows) at 1.
  rewrite entities_app, IH. reflexivity.
Qed.

Lemma rows_accounted (k : kind) (p : Path) (rows : list row) :
  forall idx,
    length (entities k rows) + length (diagnostics k p idx rows) = length rows.
Proof.
  induction rows as [|r rows IH]; intros idx; [done|].
  rewrite diagnostics_cons. change (r :: rows) with ([r] ++ rows).
  rewrite entities_app, !length_app. specialize (IH (S idx)).
  pose proof (row_once k p idx r). simpl length at 5. lia.
Qed.

(** ** Several files *)

Lemma read_readable (fs : filesystem) (f : Path) (rows : list row) :
  csvs fs !! f = Some rows -> _read_csv_rows fs f = Generator rows None.
Proof. unfold _read_csv_rows. by intros ->. Qed.

(** A file that does not read to its end makes the generator raise. *)
Lemma read_unreadable (fs : filesystem) (f : Path) :
  csvs fs !! f = None -> exists e, raises (_read_csv_rows fs f) = Some e.
Proof.
  unfold _read_csv_rows. intros ->.
  destruct (torn fs !! f) as [[rows e]|]; simpl; eauto.
Qed.

Section Files.
Variable k : kind.
Variable fs : filesystem.

Local Abbreviation run := (load_files (from_row k) (kind_word k) fs).

Lemma load_files_nil (acc : list (entity k)) : run [] acc = IO [] (Ok acc).
Proof. reflexivity. Qed.

(** At a file whose reading fails the loop has handled the rows yielded
    before the failure, and raises. *)
Lemma load_files_unreadable (f : Path) (files : list Path) (acc : list (entity k))
      (e : exn) :
  raises (_read_csv_rows fs f) = Some e ->
  run (f :: files) acc
  = IO (diagnostics k f 1 (yields (_read_csv_rows fs f))) (Raise e).
Proof.
  intros H. cbn [load_files]. rewrite load_rows_spec, bind_ok.
  unfold exhaust. rewrite H. unfold raise. rewrite bind_raised.
  cbn [stdout outcome]. by rewrite app_nil_r.
Qed.

Lemma load_files_readable (f : Path) (files : list Path) (acc : list (entity k))
      (rows : list row) :
  csvs fs !! f = Some rows ->
  run (f :: files) acc
  = IO (diagnostics k f 1 rows ++ stdout (run files (acc ++ entities k rows)))
       (outcome (run files (acc ++ entities k rows))).
Proof.
  intros H. cbn [load_files]. rewrite (read_readable fs f rows H).
  cbn [yields]. rewrite load_rows_spec, bind_ok.
  unfold exhaust. cbn [raises]. unfold mret, io_ret. rewrite bind_ok.
  cbn [stdout outcome app]. reflexivity.
Qed.

(** When every file can be read the loop returns, whatever the rows are. *)
Lemma load_files_spec (files : list Path) :
  Forall (readable fs) files ->
  forall acc,
    run files acc
    = IO (concat ((fun f => diagnostics k f 1 (rows_of fs f)) <$> files))
         (Ok (acc ++ concat ((fun f => entities k (rows_of fs f)) <$> files))).
Proof.
  induction 1 as [|f files [rows Hf] _ IH]; intros acc.
  - rewrite load_files_nil. simpl. by rewrite app_nil_r.
  - rewrite (load_files_readable f files acc rows Hf), IH.
    assert (rows_of fs f = rows) as Hrows by (unfold rows_of; by rewrite Hf).
    rewrite !fmap_cons, Hrows. cbn [concat stdout outcome].
    by rewrite <- app_assoc.
Qed.

(** A run that returns has read every file. *)
Lemma load_files_ok_readable (files : list Path) :
  forall acc log ents,
    run files acc = IO log (Ok ents) -> Forall (readable fs) files.
Proof.
  induction files as [|f files IH]; intros acc log ents H; [constructor|].
  destruct (csvs fs !! f) as [rows|] eqn:Hf.
  - rewrite (load_files_readable f files acc rows Hf) in H.
    injection H as Hlog Hout. constructor; [by exists rows|].
    eapply (IH _ (stdout _) ents). rewrite <- Hout. symmetry. apply io_eta.
  - destruct (read_unreadable fs f Hf) as [e He].
    by rewrite (load_files_unreadable f files acc e He) in H.
Qed.
End Files.

(** ** Each loader *)

(** The directory loaders are the loop over their files, started on an
    empty list. *)
Lemma load_directory_unfold (k : kind) (fs : filesystem) (p : Path) :
  k <> Gene ->
  load k fs p = load_files (from_row k) (kind_word k) fs (source_files k fs p) [].
Proof. by destruct k. Qed.

(** The gene loader reads its file whole before it looks at a row. *)
Lemma load_gene_readable (fs : filesystem) (p : Path) (rows : list row) :
  csvs fs !! p = Some rows ->
  load Gene fs p = IO (diagnostics Gene p 1 rows) (Ok (entities Gene rows)).
Proof.
  intros H. cbn [load]. unfold load_gene_nodes, list_of.
  rewrite (read_readable fs p rows H). cbn [raises yields].
  unfold mret, io_ret. rewrite bind_ok. cbn [stdout outcome app].
  rewrite io_eta. exact (load_rows_spec Gene p rows 1 []).
Qed.

Lemma load_gene_unreadable (fs : filesystem) (p : Path) (e : exn) :
  raises (_read_csv_rows fs p) = Some e -> load Gene fs p = IO [] (Raise e).
Proof.
  intros H. cbn [load]. unfold load_gene_nodes, list_of. by rewrite H.
Qed.

(** When every file of a loader reads to its end, the loader returns. *)
Lemma load_when_readable (k : kind) (fs : filesystem) (p : Path) :
  Forall (readable fs) (source_files k fs p) ->
  load k fs p = IO (all_diagnostics k fs p) (Ok (all_entities k fs p)).
Proof.
  intros H. unfold all_diagnostics, all_entities.
  destruct (decide (k = Gene)) as [->|Hk].
  - cbn [source_files] in *. apply Forall_cons in H as [[rows Hp] _].
    assert (rows_of fs p = rows) as Hrows by (unfold rows_of; by rewrite Hp).
    rewrite (load_gene_readable fs p rows Hp). cbn [fmap list_fmap concat].
    by rewrite Hrows, !app_nil_r.
  - rewrite (load_directory_unfold k fs p Hk).
    by rewrite (load_files_spec k fs _ H []).
Qed.

(** A loader that returns has read each of its files to the end. *)
Lemma load_ok_readable (k : kind) (fs : filesystem) (p : Path)
      (log : list string) (ents : list (entity k)) :
  load k fs p = IO log (Ok ents) -> Forall (readable fs) (source_files k fs p).
Proof.
  destruct (decide (k = Gene)) as [->|Hk].
  - intros H. cbn [source_files]. constructor; [|constructor].
    destruct (csvs fs !! p) as [rows|] eqn:Hp; [by exists rows|].
    destruct (read_unreadable fs p Hp) as [e He].
    by rewrite (load_gene_unreadable fs p e He) in H.
  - rewrite (load_directory_unfold k fs p Hk). apply load_files_ok_readable.
Qed.

Lemma source_files_write_rows (k : kind) (fs : filesystem) (p f : Path)
      (rows : list row) :
  source_files k (write_rows fs f rows) p = source_files k fs p.
Proof. destruct k; reflexivity. Qed.

Lemma readable_write_rows (fs : filesystem) (f g : Path) (rows : list row) :
  readable fs g -> readable (write_rows fs f rows) g.
Proof.
  unfold readable. cbn [csvs write_rows]. intros H.
  destruct (decide (f = g)) as [->|Hne].
  - rewrite lookup_insert_eq. by eexists.
  - by rewrite lookup_insert_ne.
Qed.

(** One more rejected row in a file leaves the entities of every file as
    they were. *)
Lemma entities_insert_bad (k : kind) (fs : filesystem) (f g : Path)
      (rows1 rows2 : list row) (bad : row) (e : exn) :
  csvs fs !! f = Some (rows1 ++ rows2) ->
  from_row k bad = Raise e ->
  entities k (rows_of (write_rows fs f (rows1 ++ bad :: rows2)) g)
  = entities k (rows_of fs g).
Proof.
  intros Hf Hbad. unfold rows_of. cbn [csvs write_rows].
  destruct (decide (f = g)) as [<-|Hne].
  - rewrite lookup_insert_eq, Hf. unfold default. cbn [from_option id].
    rewrite !entities_app. f_equal. by apply entities_cons_raise with e.
  - by rewrite lookup_insert_ne.
Qed.

(** C4: when the files of a loader can be read, no row makes it raise.  It
    prints the diagnostics of the rejected rows and returns the entities of
    the accepted rows, file after file and row after row; and putting one
    more rejected row anywhere in any file leaves the result as it was. *)
Theorem load_skips_bad_rows (k : kind) (fs : filesystem) (p : Path) :
  Forall (readable fs) (source_files k fs p) ->
  load k fs p
  = IO (concat ((fun f => diagnostics k f 1 (rows_of fs f)) <$> source_files k fs p))
       (Ok (concat ((fun f => entities k (rows_of fs f)) <$> source_files k fs p)))
  /\ forall (f : Path) (rows1 rows2 : list row) (bad : row) (msg : string),
       csvs fs !! f = Some (rows1 ++ rows2) ->
       from_row k bad = Raise (ValueError msg) ->
       outcome (load k (write_rows fs f (rows1 ++ bad :: rows2)) p)
       = outcome (load k fs p).
Proof.
  intros Hread. split; [exact (load_when_readable k fs p Hread)|].
  intros f rows1 rows2 bad msg Hf Hbad.
  rewrite (load_when_readable k fs p Hread).
  rewrite load_when_readable.
  - cbn [outcome]. f_equal. unfold all_entities.
    rewrite source_files_write_rows. f_equal. apply list_fmap_ext.
    intros _ g _. by apply entities_insert_bad with (ValueError msg).
  - rewrite source_files_write_rows.
    eapply Forall_impl; [exact Hread|]. intros g. apply readable_write_rows.
Qed.

Lemma load_skips_bad_rows_witness :
  Forall (readable demo_fs) (source_files Gene demo_fs demo_gene_path)
  /\ outcome (load Gene demo_fs demo_gene_path)
     = Ok [GeneNode.mk "TP53"; GeneNode.mk "BRCA1"].
Proof.
  assert (H : Forall (readable demo_fs) (source_files Gene demo_fs demo_gene_path)).
  { repeat constructor. by eexists. }
  split; [exact H|].
  destruct (load_skips_bad_rows Gene demo_fs demo_gene_path H) as [-> _].
  vm_compute. reflexivity.
Defined.

Lemma files_accounted (k : kind) (fs : filesystem) (p : Path) :
  length (all_entities k fs p) + length (all_diagnostics k fs p)
  = length (concat (rows_of fs <$> source_files k fs p)).
Proof.
  unfold all_entities, all_diagnostics.
  induction (source_files k fs p) as [|f files IH]; [done|].
  rewrite !fmap_cons. cbn [concat]. rewrite !length_app.
  pose proof (rows_accounted k f (rows_of fs f) 1). lia.
Qed.

(** C10: a loader whose files can be read returns, and has then handled
    every row of every file once.  The entities returned are those of the
    single rows, the lines printed are those of the single rows, each in
    order; a single row gives one entity or one line, never both; so entities
    and lines together are as many as the rows. *)
Theorem load_accounts_for_rows (k : kind) (fs : filesystem) (p : Path) :
  Forall (readable fs) (source_files k fs p) ->
  let files := source_files k fs p in
  exists (log : list string) (ents : list (entity k)),
    load k fs p = IO log (Ok ents)
    /\ ents = concat ((fun f =>
               concat ((fun r => entities k [r]) <$> rows_of fs f)) <$> files)
    /\ log = concat ((fun f =>
               concat (imap (fun i r => diagnostics k f (S i) [r]) (rows_of fs f)))
                       <$> files)
    /\ (forall f idx r,
          length (entities k [r]) + length (diagnostics k f idx [r]) = 1)
    /\ length ents + length log = length (concat (rows_of fs <$> files)).
Proof.
  intros Hread files.
  exists (all_diagnostics k fs p), (all_entities k fs p).
  split; [exact (load_when_readable k fs p Hread)|].
  split; [|split; [|split]].
  - unfold all_entities. f_equal. apply list_fmap_ext. intros _ f _.
    apply entities_by_row.
  - unfold all_diagnostics. f_equal. apply list_fmap_ext. intros _ f _.
    apply (diagnostics_by_row k f (rows_of fs f) 1).
  - intros f idx r. apply row_once.
  - apply files_accounted.
Qed.

Lemma load_accounts_for_rows_witness :
  Forall (readable demo_fs) (source_files Term demo_fs demo_term_dir)
  /\ exists (log : list string) (ents : list TermNode.t),
       load Term demo_fs demo_term_dir = IO log (Ok ents)
       /\ length ents + length log
          = length (concat (rows_of demo_fs <$> source_files Term demo_fs demo_term_dir)).
Proof.
  assert (H : Forall (readable demo_fs) (source_files Term demo_fs demo_term_dir)).
  { replace (source_files Term demo_fs demo_term_dir)
      with [["data"; "term_node"; "a.csv"]; ["data"; "term_node"; "b.csv"]]
      by (vm_compute; reflexivity).
    repeat constructor; by eexists. }
  split; [exact H|].
  destruct (load_accounts_for_rows Term demo_fs demo_term_dir H)
    as (log & ents & Hload & _ & _ & _ & Hcount).
  exists log, ents. split; [exact Hload|exact Hcount].
Defined.

(** ** The order of paths *)

Lemma string_leb_refl (a : string) : String.leb a a = true.
Proof. destruct (String.leb_total a a); done. Qed.

Lemma string_leb_trans (a b c : string) :
  String.leb a b = true -> String.leb b c = true -> String.leb a c = true.
Proof.
  intros H1%Is_true_true H2%Is_true_true. apply Is_true_true.
  change (String.le a c). by trans b.
Qed.

Lemma path_le_trans : Transitive path_le.
Proof.
  unfold path_le. intros p. induction p as [|a p IH]; intros [|b q] [|c r]; simpl;
    try done.
  destruct (decide (a = b)) as [->|Hab], (decide (b = c)) as [->|Hbc]; simpl.
  - apply IH.
  - auto.
  - rewrite decide_False by done. auto.
  - intros H1 H2. destruct (decide (a = c)) as [->|Hac].
    + destruct Hab. by apply String.leb_antisym.
    + by apply string_leb_trans with b.
Qed.

Lemma path_le_antisym : AntiSymm (=) path_le.
Proof.
  unfold path_le. intros p. induction p as [|a p IH]; intros [|b q]; simpl;
    try done.
  destruct (decide (a = b)) as [->|Hab].
  - rewrite decide_True by done. intros H1 H2. f_equal. by apply IH.
  - rewrite decide_False by done. intros H1 H2.
    destruct Hab. by apply String.leb_antisym.
Qed.

Lemma path_le_total : Total path_le.
Proof.
  unfold path_le. intros p. induction p as [|a p IH]; intros [|b q]; simpl;
    auto.
  destruct (decide (a = b)) as [->|Hab].
  - rewrite decide_True by done. apply IH.
  - rewrite decide_False by done. apply String.leb_total.
Qed.

(** Among the entries of one directory the order of paths is the order of
    names. *)
Lemma path_leb_child (dir : Path) (a b : string) :
  path_leb (dir ++ [a]) (dir ++ [b]) = String.leb a b.
Proof.
  induction dir as [|c dir IH]; simpl.
  - destruct (decide (a = b)) as [->|]; [|done]. by rewrite string_leb_refl.
  - by rewrite decide_True.
Qed.

Lemma sorted_Sorted (paths : list Path) : Sorted path_le (sorted paths).
Proof. apply (@Sorted_merge_sort _ path_le _ path_le_total). Qed.

Lemma sorted_Permutation (paths : list Path) : sorted paths ≡ₚ paths.
Proof. apply merge_sort_Permutation. Qed.


(** Sorting the entries of a directory is sorting their names. *)
Lemma sorted_children (dir : Path) (names : list string) :
  sorted ((fun name => dir ++ [name]) <$> names)
  = (fun name => dir ++ [name]) <$> merge_sort String.le names.
Proof.
  apply (@Sorted_unique _ path_le path_le_trans path_le_antisym).
  - apply sorted_Sorted.
  - apply Sorted_fmap with (R1 := String.le); [|apply Sorted_merge_sort, _].
    intros a b Hab. unfold path_le. rewrite path_leb_child.
    by apply Is_true_true.
  - rewrite sorted_Permutation. by rewrite merge_sort_Permutation.
Qed.

Lemma glob_csv_names (fs : filesystem) (dir : Path) (names : list string) :
  dirs fs !! dir = Some names ->
  sorted (glob_csv fs dir)
  = (fun name => dir ++ [name])
      <$> csv_names names.
Proof. intros H. unfold glob_csv. rewrite H. apply sorted_children. Qed.

Lemma sorted_nil : sorted [] = [].
Proof. reflexivity. Qed.

(** ** Directory loaders *)

Lemma csv_names_Sorted (names : list string) : Sorted String.le (csv_names names).
Proof. apply Sorted_merge_sort, _. Qed.

Lemma csv_names_Permutation (names : list string) :
  csv_names names ≡ₚ filter (fun name => ends_with ".csv" name) names.
Proof. apply merge_sort_Permutation. Qed.

Lemma filter_csv_fmap (rename : string -> string) (names : list string) :
  (forall name, name ∈ names ->
     ends_with ".csv" (rename name) = ends_with ".csv" name) ->
  filter (fun name => ends_with ".csv" name) (rename <$> names)
  = rename <$> filter (fun name => ends_with ".csv" name) names.
Proof.
  induction names as [|n names IH]; intros H; [done|].
  rewrite fmap_cons, !filter_cons, (H n) by left.
  rewrite IH by (intros; apply H; by right).
  by destruct (decide _).
Qed.

Lemma source_files_directory (k : kind) (fs : filesystem) (dir : Path)
      (names : list string) :
  k <> Gene ->
  dirs fs !! dir = Some names ->
  source_files k fs dir = (fun name => dir ++ [name]) <$> csv_names names.
Proof. intros Hk H. destruct k; [done|..]; by apply glob_csv_names. Qed.

Lemma load_directory (k : kind) (fs : filesystem) (dir : Path) (names : list string) :
  k <> Gene ->
  dirs fs !! dir = Some names ->
  Forall (fun name => readable fs (dir ++ [name])) (csv_names names) ->
  outcome (load k fs dir) = Ok (concat (segment k fs dir <$> csv_names names)).
Proof.
  intros Hk Hdir Hread.
  rewrite (load_directory_unfold k fs dir Hk),
    (source_files_directory k fs dir names Hk Hdir).
  rewrite load_files_spec by (by apply Forall_fmap).
  cbn [outcome app]. by rewrite <- list_fmap_compose.
Qed.

(** C5: a directory loader returns the segments of the [.csv] files of the
    directory one after the other, the files taken in the order of their
    names and each segment keeping the order of its rows.  When the files
    are renamed, the result is made of the same segments, in the order of
    the new names. *)
Theorem load_in_name_order (k : kind) (fs : filesystem) (dir : Path)
        (names : list string) :
  k <> Gene ->
  dirs fs !! dir = Some names ->
  Forall (fun name => readable fs (dir ++ [name])) (csv_names names) ->
  Sorted String.le (csv_names names)
  /\ csv_names names ≡ₚ filter (fun name => ends_with ".csv" name) names
  /\ outcome (load k fs dir) = Ok (concat (segment k fs dir <$> csv_names names))
  /\ forall (fs' : filesystem) (rename : string -> string),
       dirs fs' !! dir = Some (rename <$> names) ->
       (forall name, name ∈ names ->
          ends_with ".csv" (rename name) = ends_with ".csv" name) ->
       (forall name, name ∈ names ->
          csvs fs' !! (dir ++ [rename name]) = csvs fs !! (dir ++ [name])) ->
       outcome (load k fs' dir)
       = Ok (concat (segment k fs' dir <$> csv_names (rename <$> names)))
       /\ segment k fs' dir <$> csv_names (rename <$> names)
          ≡ₚ segment k fs dir <$> csv_names names.
Proof.
  intros Hk Hdir Hread.
  split; [apply csv_names_Sorted|]. split; [apply csv_names_Permutation|].
  split; [by apply load_directory|].
  intros fs' rename Hdir' Hcsv Hsame.
  assert (Hperm : csv_names (rename <$> names) ≡ₚ rename <$> csv_names names).
  { rewrite !csv_names_Permutation, filter_csv_fmap by done.
    by rewrite <- csv_names_Permutation. }
  assert (Hin : forall name, name ∈ csv_names names -> name ∈ names).
  { intros name. rewrite csv_names_Permutation.
    intros Hn. by apply list_elem_of_filter in Hn as [_ ?]. }
  split.
  - apply load_directory; [done..|].
    rewrite Hperm. apply Forall_fmap, Forall_forall. intros name Hn.
    rewrite Forall_forall in Hread. specialize (Hread name Hn).
    unfold readable, compose in *. by rewrite Hsame by auto.
  - rewrite Hperm, <- list_fmap_compose.
    apply reflexive_eq. apply Forall_fmap_ext_1.
    apply Forall_forall. intros name Hn.
    unfold compose, segment, rows_of. by rewrite Hsame by auto.
Qed.

Lemma load_in_name_order_witness :
  Term <> Gene
  /\ dirs demo_fs !! demo_term_dir = Some ["b.csv"; "notes.txt"; "a.csv"]
  /\ Forall (fun name => readable demo_fs (demo_term_dir ++ [name]))
        (csv_names ["b.csv"; "notes.txt"; "a.csv"])
  /\ csv_names ["b.csv"; "notes.txt"; "a.csv"] = ["a.csv"; "b.csv"]
  /\ outcome (load Term demo_fs demo_term_dir)
     = Ok (concat (segment Term demo_fs demo_term_dir
                     <$> csv_names ["b.csv"; "notes.txt"; "a.csv"])).
Proof.
  assert (Hk : Term <> Gene) by discriminate.
  assert (Hdir : dirs demo_fs !! demo_term_dir = Some ["b.csv"; "notes.txt"; "a.csv"])
    by (vm_compute; reflexivity).
  assert (Hnames : csv_names ["b.csv"; "notes.txt"; "a.csv"] = ["a.csv"; "b.csv"])
    by (vm_compute; reflexivity).
  assert (Hread : Forall (fun name => readable demo_fs (demo_term_dir ++ [name]))
                    (csv_names ["b.csv"; "notes.txt"; "a.csv"])).
  { rewrite Hnames. repeat constructor; by eexists. }
  split; [exact Hk|]. split; [exact Hdir|]. split; [exact Hread|].
  split; [exact Hnames|].
  exact (proj1 (proj2 (proj2
    (load_in_name_order Term demo_fs demo_term_dir _ Hk Hdir Hread)))).
Defined.

Lemma glob_csv_empty (fs : filesystem) (dir : Path) :
  dirs fs !! dir = None \/ dirs fs !! dir = Some [] -> glob_csv fs dir = [].
Proof. unfold glob_csv. by intros [-> | ->]. Qed.

(** C6: on a directory that is not there or has no entries the two
    directory loaders print nothing, raise nothing and return the empty
    list; and the payload built from an empty list carries the count 0 for
    it. *)
Theorem load_empty_directory (fs : filesystem) (dir : Path) :
  dirs fs !! dir = None \/ dirs fs !! dir = Some [] ->
  load_term_nodes fs dir = IO [] (Ok [])
  /\ load_edges fs dir = IO [] (Ok [])
  /\ (forall genes edges,
        getitem (build_knowledge_graph genes [] edges) "terms" = Some (JList [])
        /\ count (build_knowledge_graph genes [] edges) "terms" = Some (JInt 0))
  /\ (forall genes terms,
        getitem (build_knowledge_graph genes terms []) "triples" = Some (JList [])
        /\ count (build_knowledge_graph genes terms []) "triples" = Some (JInt 0)).
Proof.
  intros H. unfold load_term_nodes, load_edges.
  rewrite (glob_csv_empty fs dir H), sorted_nil. repeat split.
Qed.

Lemma load_empty_directory_witness :
  dirs demo_fs !! ["data"; "nowhere"] = None
  /\ load_term_nodes demo_fs ["data"; "nowhere"] = IO [] (Ok [])
  /\ load_edges demo_fs ["data"; "nowhere"] = IO [] (Ok []).
Proof.
  assert (H : dirs demo_fs !! ["data"; "nowhere"] = None) by (vm_compute; reflexivity).
  split; [exact H|].
  destruct (load_empty_directory demo_fs ["data"; "nowhere"] (or_introl H))
    as (Ht & He & _).
  split; assumption.
Defined.

(** ** The whole run *)


(** The loop depends on the disk through what the generators of its files
    do, and through nothing else. *)
Lemma load_files_same_reads {A} (from_row : row -> result A) (word : string)
      (fs1 fs2 : filesystem) (files : list Path) :
  (forall f, f ∈ files -> _read_csv_rows fs1 f = _read_csv_rows fs2 f) ->
  forall acc,
    load_files from_row word fs1 files acc = load_files from_row word fs2 files acc.
Proof.
  induction files as [|f files IH]; intros H acc; [done|].
  cbn [load_files]. rewrite (H f) by (by left).
  destruct (load_rows from_row word f 1 (yields (_read_csv_rows fs2 f)) acc)
    as [log [acc'|e]]; [|done].
  rewrite !bind_ok. destruct (exhaust (_read_csv_rows fs2 f)) as [log' [[]|e]]; [|done].
  rewrite !bind_ok. rewrite IH; [done|]. intros g Hg. apply H. by right.
Qed.








(** ** The payload *)

Lemma as_dict_inj (fields1 fields2 : list (string * string)) :
  as_dict fields1 = as_dict fields2 -> fields1 = fields2.
Proof.
  unfold as_dict. intros [= H]. revert fields2 H.
  induction fields1 as [|[k1 v1] l1 IH]; intros [|[k2 v2] l2] H; simplify_eq/=;
    [done|]. f_equal. by apply IH.
Qed.

Lemma gene_dict_inj (g1 g2 : GeneNode.t) :
  as_dict (GeneNode.fields g1) = as_dict (GeneNode.fields g2) -> g1 = g2.
Proof. intros H%as_dict_inj. destruct g1, g2. by simplify_eq/=. Qed.

Lemma term_dict_inj (t1 t2 : TermNode.t) :
  as_dict (TermNode.fields t1) = as_dict (TermNode.fields t2) -> t1 = t2.
Proof. intros H%as_dict_inj. destruct t1, t2. by simplify_eq/=. Qed.

Lemma edge_dict_inj (e1 e2 : Edge.t) :
  as_dict (Edge.fields e1) = as_dict (Edge.fields e2) -> e1 = e2.
Proof. intros H%as_dict_inj. destruct e1, e2. by simplify_eq/=. Qed.

Lemma fmap_injective {A B} (f : A -> B) :
  (forall x y, f x = f y -> x = y) ->
  forall l1 l2 : list A, f <$> l1 = f <$> l2 -> l1 = l2.
Proof.
  intros Hf l1. induction l1 as [|x l1 IH]; intros [|y l2] H; simplify_eq/=;
    [done|]. f_equal; auto.
Qed.

(** The payload, key by key. *)
Lemma build_knowledge_graph_eq (genes : list GeneNode.t) (terms : list TermNode.t)
      (edges : list Edge.t) :
  build_knowledge_graph genes terms edges
  = [("counts", JDict [("genes", JInt (Z.of_nat (length genes)));
                       ("terms", JInt (Z.of_nat (length terms)));
                       ("triples", JInt (Z.of_nat (length edges)))]);
     ("genes", JList ((fun gene => as_dict (GeneNode.fields gene)) <$> genes));
     ("terms", JList ((fun term => as_dict (TermNode.fields term)) <$> terms));
     ("triples", JList ((fun edge => as_dict (Edge.fields edge)) <$> edges))].
Proof. reflexivity. Qed.

(** C2: in the payload the three counts are the lengths of the three lists
    of the payload, which are the lengths of the three inputs, and [counts]
    is the first key. *)
Theorem counts_match_lengths (genes : list GeneNode.t) (terms : list TermNode.t)
        (edges : list Edge.t) :
  let payload := build_knowledge_graph genes terms edges in
  exists counts gl tl el,
    head payload = Some ("counts", JDict counts)
    /\ payload.*1 = ["counts"; "genes"; "terms"; "triples"]
    /\ getitem payload "genes" = Some (JList gl)
    /\ getitem payload "terms" = Some (JList tl)
    /\ getitem payload "triples" = Some (JList el)
    /\ count payload "genes" = Some (JInt (Z.of_nat (length gl)))
    /\ count payload "terms" = Some (JInt (Z.of_nat (length tl)))
    /\ count payload "triples" = Some (JInt (Z.of_nat (length el)))
    /\ length gl = length genes
    /\ length tl = length terms
    /\ length el = length edges.
Proof.
  intros payload. unfold payload. rewrite build_knowledge_graph_eq.
  exists [("genes", JInt (Z.of_nat (length genes)));
          ("terms", JInt (Z.of_nat (length terms)));
          ("triples", JInt (Z.of_nat (length edges)))],
    ((fun gene => as_dict (GeneNode.fields gene)) <$> genes),
    ((fun term => as_dict (TermNode.fields term)) <$> terms),
    ((fun edge => as_dict (Edge.fields edge)) <$> edges).
  rewrite !length_fmap. repeat split; reflexivity.
Qed.

(** C7: the three lists of the payload are the three inputs rendered
    element by element, in the same order and with repetitions kept; two
    elements are rendered alike only when they are equal; the result depends
    on nothing but the three inputs. *)
Theorem build_keeps_sequences (genes : list GeneNode.t) (terms : list TermNode.t)
        (edges : list Edge.t) :
  let payload := build_knowledge_graph genes terms edges in
  getitem payload "genes"
    = Some (JList ((fun gene => as_dict (GeneNode.fields gene)) <$> genes))
  /\ getitem payload "terms"
    = Some (JList ((fun term => as_dict (TermNode.fields term)) <$> terms))
  /\ getitem payload "triples"
    = Some (JList ((fun edge => as_dict (Edge.fields edge)) <$> edges))
  /\ (forall g1 g2, as_dict (GeneNode.fields g1) = as_dict (GeneNode.fields g2) -> g1 = g2)
  /\ (forall t1 t2, as_dict (TermNode.fields t1) = as_dict (TermNode.fields t2) -> t1 = t2)
  /\ (forall e1 e2, as_dict (Edge.fields e1) = as_dict (Edge.fields e2) -> e1 = e2)
  /\ (forall genes' terms' edges',
        build_knowledge_graph genes' terms' edges' = payload ->
        genes' = genes /\ terms' = terms /\ edges' = edges).
Proof.
  intros payload. unfold payload. rewrite build_knowledge_graph_eq.
  repeat split; try reflexivity;
    try first [apply gene_dict_inj | apply term_dict_inj | apply edge_dict_inj];
    rewrite build_knowledge_graph_eq in H; simplify_eq/=.
  - eapply fmap_injective; [apply gene_dict_inj|eassumption].
  - eapply fmap_injective; [apply term_dict_inj|eassumption].
  - eapply fmap_injective; [apply edge_dict_inj|eassumption].
Qed.

(** ** What the messages name *)

Lemma prefix_app (x rest : string) : String.prefix x (x +:+ rest) = true.
Proof.
  induction x as [|a x IH]; simpl; [by destruct rest|].
  by destruct (ascii_dec a a).
Qed.

Lemma contains_here (x rest : string) : contains x (x +:+ rest) = true.
Proof.
  pose proof (prefix_app x rest) as H.
  destruct (x +:+ rest); cbn [contains]; by rewrite H.
Qed.

Lemma contains_later (x before s : string) :
  contains x s = true -> contains x (before +:+ s) = true.
Proof.
  intros H. induction before as [|a before IH]; [done|].
  simpl. rewrite IH. apply orb_true_r.
Qed.

Lemma contains_end (x : string) : contains x x = true.
Proof.
  assert (x = x +:+ "") as E.
  { induction x as [|a x IH]; [done|].
    change (String a x = String a (x +:+ "")). by f_equal. }
  rewrite E at 2. apply contains_here.
Qed.

Lemma skip_message_names (word : string) (idx : nat) (p : Path) (exc : string) :
  contains word (skip_message word idx p exc) = true
  /\ contains (pretty idx) (skip_message word idx p exc) = true
  /\ contains (path_str p) (skip_message word idx p exc) = true
  /\ contains exc (skip_message word idx p exc) = true.
Proof.
  unfold skip_message.
  repeat split; repeat first [apply contains_here | apply contains_end | apply contains_later].
Qed.

(** C9, as the code has it: the message of a rejected row is the fixed text
    of its kind, which names the kind, and is the same whatever file the row
    comes from.  The file and the number of the row are named by the line
    the loader prints, which carries that message at its end. *)
Theorem rejection_message (k : kind) (r : row) (msg : string) :
  from_row k r = Raise (ValueError msg) ->
  msg = missing k
  /\ contains (kind_name k) msg = true
  /\ forall (p : Path) (idx : nat),
       let line := skip_message (kind_word k) idx p msg in
       diagnostics k p idx [r] = [line]
       /\ contains (kind_word k) line = true
       /\ contains (path_str p) line = true
       /\ contains (pretty idx) line = true
       /\ contains msg line = true.
Proof.
  intros H. pose proof (from_row_raise k r _ H) as [= ->].
  split; [done|]. split; [by destruct k|].
  intros p idx line. unfold line.
  destruct (skip_message_names (kind_word k) idx p (missing k)) as (H1 & H2 & H3 & H4).
  split; [|done]. simpl. by rewrite H.
Qed.

Lemma rejection_message_witness :
  from_row Term empty_row = Raise (ValueError TermNode.missing)
  /\ contains (kind_name Term) TermNode.missing = true
  /\ diagnostics Term ["data"; "term_node"; "a.csv"] 4 [empty_row]
     = [skip_message "term" 4 ["data"; "term_node"; "a.csv"] TermNode.missing].
Proof.
  assert (H : from_row Term empty_row = Raise (ValueError TermNode.missing))
    by (vm_compute; reflexivity).
  split; [exact H|].
  destruct (rejection_message Term empty_row TermNode.missing H) as (_ & Hk & Hline).
  split; [exact Hk|].
  exact (proj1 (Hline ["data"; "term_node"; "a.csv"] 4)).
Defined.

(** C9, as the specification words it, fails: the second row of the gene file of
    the example is rejected with a message that names neither the path of the
    file nor its name. *)
Lemma missing_text_names_no_file :
  rows_of demo_fs demo_gene_path !! 1%nat = Some empty_row
  /\ from_row Gene empty_row = Raise (ValueError GeneNode.missing)
  /\ contains (path_str demo_gene_path) GeneNode.missing = false
  /\ contains "Gene.nodes.csv" GeneNode.missing = false.
Proof. vm_compute. done. Qed.

(** * Further properties of the code *)

(** ** Validators *)

(** X1: a validator reads the required columns of its kind and nothing
    else: two rows that agree on them get the same result, whatever other
    columns they have. *)
Theorem from_row_ignores_other_columns (k : kind) (r1 r2 : row) :
  (forall f, f ∈ required k -> get r1 f = get r2 f) ->
  from_row k r1 = from_row k r2.
Proof.
  intros H. destruct k; simpl in *.
  - unfold GeneNode.from_row. by rewrite (H "label") by (by left).
  - unfold TermNode.from_row. by rewrite (H "label") by (by left).
  - unfold Edge.from_row.
    rewrite (H "source_label") by (by left).
    rewrite (H "relation") by (right; by left).
    by rewrite (H "target_label") by (do 2 right; by left).
Qed.

Lemma from_row_ignores_other_columns_witness :
  (forall f, f ∈ required Triple -> get mixed_row f = get mixed_row_bare f)
  /\ from_row Triple mixed_row = from_row Triple mixed_row_bare.
Proof.
  assert (H : forall f, f ∈ required Triple -> get mixed_row f = get mixed_row_bare f).
  { intros f Hf. simpl in Hf.
    repeat (apply elem_of_cons in Hf as [->|Hf]); [..|by apply elem_of_nil in Hf];
      vm_compute; reflexivity. }
  split; [exact H|]. exact (from_row_ignores_other_columns Triple _ _ H).
Defined.

Lemma from_row_nonempty (k : kind) (r : row) (e : entity k) :
  from_row k r = Ok e -> Forall (fun kv => kv.2 <> "") (fields k e).
Proof.
  destruct k; simpl in *.
  - destruct (gene_from_row_cases r) as [[_ ->]|(s & Hs & _ & ->)]; [done|].
    intros [= <-]. repeat constructor; done.
  - destruct (term_from_row_cases r) as [[_ ->]|(s & Hs & _ & ->)]; [done|].
    intros [= <-]. repeat constructor; done.
  - destruct (edge_from_row_cases r)
      as [[_ ->]|(s & rel & tg & Hs & Hr & Ht & _ & _ & _ & ->)]; [done|].
    intros [= <-]. repeat constructor; done.
Qed.

Lemma entities_Forall (k : kind) (P : entity k -> Prop) (rows : list row) :
  (forall r e, r ∈ rows -> from_row k r = Ok e -> P e) ->
  Forall P (entities k rows).
Proof.
  induction rows as [|r rows IH]; intros H; [constructor|].
  destruct (from_row k r) as [e|e] eqn:E.
  - rewrite (entities_cons_ok k r rows e E). constructor.
    + apply (H r); [by left|done].
    + apply IH. intros r' e' Hr'. apply H. by right.
  - rewrite (entities_cons_raise k r rows e E).
    apply IH. intros r' e' Hr'. apply H. by right.
Qed.

(** ** Loaders *)

Lemma load_files_stop (k : kind) (fs : filesystem) (before after : list Path)
      (f : Path) (e : exn) :
  Forall (readable fs) before ->
  raises (_read_csv_rows fs f) = Some e ->
  forall acc,
    load_files (from_row k) (kind_word k) fs (before ++ f :: after) acc
    = IO (concat ((fun g => diagnostics k g 1 (rows_of fs g)) <$> before)
          ++ diagnostics k f 1 (yields (_read_csv_rows fs f)))
         (Raise e).
Proof.
  intros Hread Hf. induction Hread as [|g before [rows Hg] _ IH]; intros acc.
  - simpl. by apply load_files_unreadable.
  - change ((g :: before) ++ f :: after) with (g :: (before ++ f :: after)).
    rewrite (load_files_readable k fs g _ acc rows Hg), IH.
    assert (rows_of fs g = rows) as Hrows by (unfold rows_of; by rewrite Hg).
    rewrite fmap_cons, Hrows. cbn [concat stdout outcome].
    by rewrite <- app_assoc.
Qed.

(** What a loader does at the first of its files whose reading fails. *)
Lemma load_stop (k : kind) (fs : filesystem) (p : Path)
      (before after : list Path) (f : Path) (e : exn) :
  source_files k fs p = before ++ f :: after ->
  Forall (readable fs) before ->
  raises (_read_csv_rows fs f) = Some e ->
  load k fs p
  = IO (concat ((fun g => diagnostics k g 1 (rows_of fs g)) <$> before)
        ++ printed_of_failing k fs f)
       (Raise e).
Proof.
  intros Hsrc Hread Hf. destruct (decide (k = Gene)) as [->|Hk].
  - cbn [source_files] in Hsrc. destruct before as [|g before].
    + injection Hsrc as <- _. by apply load_gene_unreadable.
    + injection Hsrc as _ Hsrc. by destruct before.
  - rewrite (load_directory_unfold k fs p Hk), Hsrc.
    rewrite (load_files_stop k fs before after f e Hread Hf).
    by destruct k.
Qed.

(** X2: every entity a loader returns has a text that is not empty in each
    of its fields. *)
Theorem loaded_fields_nonempty (k : kind) (fs : filesystem) (p : Path)
        (log : list string) (ents : list (entity k)) :
  load k fs p = IO log (Ok ents) ->
  Forall (fun e => Forall (fun kv => kv.2 <> "") (fields k e)) ents.
Proof.
  intros H. pose proof (load_ok_readable k fs p log ents H) as Hread.
  rewrite (load_when_readable k fs p Hread) in H. injection H as _ <-.
  unfold all_entities. apply Forall_concat, Forall_fmap, Forall_forall.
  intros f _. apply entities_Forall. intros r e _. apply from_row_nonempty.
Qed.

Lemma loaded_fields_nonempty_witness :
  load Gene demo_fs demo_gene_path
  = IO ["Skipping invalid gene row #2 in data/gene_node/Gene.nodes.csv: Gene row is missing required 'label' column"]
       (Ok [GeneNode.mk "TP53"; GeneNode.mk "BRCA1"])
  /\ Forall (fun e => Forall (fun kv => kv.2 <> "") (fields Gene e))
       [GeneNode.mk "TP53"; GeneNode.mk "BRCA1"].
Proof.
  assert (H : load Gene demo_fs demo_gene_path
    = IO ["Skipping invalid gene row #2 in data/gene_node/Gene.nodes.csv: Gene row is missing required 'label' column"]
         (Ok [GeneNode.mk "TP53"; GeneNode.mk "BRCA1"]))
    by (vm_compute; reflexivity).
  split; [exact H|]. exact (loaded_fields_nonempty Gene demo_fs demo_gene_path _ _ H).
Defined.

(** X3: a loader stops at the first of its files whose reading fails, be it
    that the file cannot be opened or that its reading breaks off.  It raises
    that exception and returns none of the entities collected so far.  It has
    printed the diagnostics of the files read before; a directory loader has
    also printed those of the rows the failing file yielded before it
    failed, while the gene loader, which reads its file whole before it looks
    at a row, has printed nothing. *)
Theorem load_stops_at_unreadable (k : kind) (fs : filesystem) (p : Path)
        (before after : list Path) (f : Path) (e : exn) :
  source_files k fs p = before ++ f :: after ->
  Forall (readable fs) before ->
  raises (_read_csv_rows fs f) = Some e ->
  load k fs p
  = IO (concat ((fun g => diagnostics k g 1 (rows_of fs g)) <$> before)
        ++ match k with
           | Gene => []
           | Term | Triple => diagnostics k f 1 (yields (_read_csv_rows fs f))
           end)
       (Raise e).
Proof. intros Hsrc Hread Hf. by apply load_stop with after. Qed.

Lemma load_stops_at_unreadable_witness :
  source_files Term torn_fs demo_term_dir
  = [["data"; "term_node"; "a.csv"]] ++ ["data"; "term_node"; "b.csv"] :: []
  /\ raises (_read_csv_rows torn_fs ["data"; "term_node"; "b.csv"])
     = Some (UnicodeDecodeError "invalid start byte")
  /\ load Term torn_fs demo_term_dir
     = IO ["Skipping invalid term row #1 in data/term_node/b.csv: Term row is missing required 'label' column"]
          (Raise (UnicodeDecodeError "invalid start byte")).
Proof.
  assert (Hsrc : source_files Term torn_fs demo_term_dir
    = [["data"; "term_node"; "a.csv"]] ++ ["data"; "term_node"; "b.csv"] :: [])
    by (vm_compute; reflexivity).
  assert (He : raises (_read_csv_rows torn_fs ["data"; "term_node"; "b.csv"])
               = Some (UnicodeDecodeError "invalid start byte"))
    by (vm_compute; reflexivity).
  split; [exact Hsrc|]. split; [exact He|].
  rewrite (load_stops_at_unreadable Term torn_fs demo_term_dir _ _ _
             (UnicodeDecodeError "invalid start byte") Hsrc).
  - vm_compute. reflexivity.
  - repeat constructor. by eexists.
  - exact He.
Defined.

Example gene_file_torn :
  load Gene (FS ∅ ∅ {[ demo_gene_path := ([empty_row], csv_Error "line contains NUL") ]} ∅)
       demo_gene_path
  = IO [] (Raise (csv_Error "line contains NUL")).
Proof. vm_compute. reflexivity. Qed.

Example term_file_missing :
  load Term broken_fs demo_term_dir
  = IO [] (Raise (OSError ["data"; "term_node"; "b.csv"])).
Proof. vm_compute. reflexivity. Qed.

Lemma read_agree (fs1 fs2 : filesystem) (f : Path) :
  csvs fs1 !! f = csvs fs2 !! f -> torn fs1 !! f = torn fs2 !! f ->
  _read_csv_rows fs1 f = _read_csv_rows fs2 f.
Proof. unfold _read_csv_rows. by intros -> ->. Qed.

(** A loader depends on the disk through the list of its files and through
    what their generators do. *)
Lemma load_same_sources (k : kind) (fs1 fs2 : filesystem) (p : Path) :
  source_files k fs1 p = source_files k fs2 p ->
  (forall f, f ∈ source_files k fs1 p ->
     _read_csv_rows fs1 f = _read_csv_rows fs2 f) ->
  load k fs1 p = load k fs2 p.
Proof.
  intros Hsrc Hread. destruct (decide (k = Gene)) as [->|Hk].
  - cbn [load]. unfold load_gene_nodes. rewrite (Hread p); [done|].
    cbn [source_files]. by left.
  - rewrite !load_directory_unfold, <- Hsrc by done.
    by apply load_files_same_reads.
Qed.

(** X4: a loader reads the files it is pointed at and no other.  When two
    states of the disk list the directory alike and agree on the files the
    loader opens, the loader prints and returns the same, however the rest
    of the disk differs. *)
Theorem load_reads_only_its_files (k : kind) (fs1 fs2 : filesystem) (p : Path) :
  dirs fs1 !! p = dirs fs2 !! p ->
  (forall f, f ∈ source_files k fs1 p ->
     csvs fs1 !! f = csvs fs2 !! f /\ torn fs1 !! f = torn fs2 !! f) ->
  load k fs1 p = load k fs2 p.
Proof.
  intros Hdir Hfiles. apply load_same_sources.
  - destruct k; [done|..]; simpl; unfold glob_csv; by rewrite Hdir.
  - intros f Hf. destruct (Hfiles f Hf). by apply read_agree.
Qed.

Lemma load_reads_only_its_files_witness :
  dirs demo_fs !! ["data"; "term_gene_edge"] = dirs torn_fs !! ["data"; "term_gene_edge"]
  /\ load Triple demo_fs ["data"; "term_gene_edge"]
     = load Triple torn_fs ["data"; "term_gene_edge"].
Proof.
  assert (Hdir : dirs demo_fs !! ["data"; "term_gene_edge"]
                 = dirs torn_fs !! ["data"; "term_gene_edge"]) by reflexivity.
  split; [exact Hdir|].
  apply (load_reads_only_its_files Triple demo_fs torn_fs _ Hdir).
  intros f Hf.
  replace (source_files Triple demo_fs ["data"; "term_gene_edge"])
    with [["data"; "term_gene_edge"; "edges.csv"]] in Hf by (vm_compute; reflexivity).
  apply list_elem_of_singleton in Hf as ->. split; vm_compute; reflexivity.
Defined.

(** X5: an entry of the directory whose name does not end in [.csv] is not
    opened: adding one anywhere in the listing changes nothing of what a
    loader prints and returns. *)
Theorem load_ignores_other_entries (k : kind) (fs : filesystem) (dir : Path)
        (names1 names2 : list string) (name : string) :
  dirs fs !! dir = Some (names1 ++ names2) ->
  ends_with ".csv" name = false ->
  load k (FS (<[dir := names1 ++ name :: names2]> (dirs fs)) (csvs fs)
             (torn fs) (denied fs)) dir
  = load k fs dir.
Proof.
  intros Hdir Hname. set (fs' := FS _ _ _ _).
  apply load_same_sources; [|done].
  assert (glob_csv fs' dir = glob_csv fs dir) as Hglob.
  { unfold glob_csv. cbn [dirs fs']. rewrite lookup_insert_eq, Hdir.
    rewrite !filter_app, filter_cons_False; [done|]. by apply Is_true_false. }
  destruct k; cbn [source_files]; by rewrite ?Hglob.
Qed.

Lemma load_ignores_other_entries_witness :
  dirs demo_fs !! demo_term_dir = Some (["b.csv"] ++ ["notes.txt"; "a.csv"])
  /\ ends_with ".csv" "a.CSV.bak" = false
  /\ load Term (FS (<[demo_term_dir := ["b.csv"] ++ "a.CSV.bak" :: ["notes.txt"; "a.csv"]]>
                      (dirs demo_fs)) (csvs demo_fs) (torn demo_fs) (denied demo_fs))
          demo_term_dir
     = load Term demo_fs demo_term_dir.
Proof.
  assert (Hdir : dirs demo_fs !! demo_term_dir = Some (["b.csv"] ++ ["notes.txt"; "a.csv"]))
    by (vm_compute; reflexivity).
  assert (Hname : ends_with ".csv" "a.CSV.bak" = false) by (vm_compute; reflexivity).
  split; [exact Hdir|]. split; [exact Hname|].
  exact (load_ignores_other_entries Term demo_fs demo_term_dir _ _ _ Hdir Hname).
Defined.

(** ** The run as a whole *)

Lemma main_unfold (fs : filesystem) (a : args) :
  main fs a
  = (gene_nodes ← load Gene fs (resolve a (gene_file a));
     term_nodes ← load Term fs (resolve a (term_dir a));
     edges ← load Triple fs (resolve a (edge_dir a));
     mkdir fs (parent (resolve a (output a)));;
     open_w fs (resolve a (output a));;
     print (written_line a);;
     mret (resolve a (output a),
           json_dump (build_knowledge_graph gene_nodes term_nodes edges))).
Proof. reflexivity. Qed.

(** The two steps that prepare the output print nothing; each returns or
    raises. *)
Lemma mkdir_cases (fs : filesystem) (p : Path) :
  (denied fs !! p = None /\ existsb (is_file fs) (prefixes p) = false
   /\ mkdir fs p = IO [] (Ok tt))
  \/ (~ (denied fs !! p = None /\ existsb (is_file fs) (prefixes p) = false)
      /\ exists e, mkdir fs p = IO [] (Raise e)).
Proof.
  unfold mkdir. destruct (denied fs !! p) as [e|].
  - right. split; [by intros [? _]|]. by exists e.
  - destruct (existsb (is_file fs) (prefixes p)).
    + right. split; [by intros [_ ?]|]. by eexists.
    + by left.
Qed.

Lemma open_w_cases (fs : filesystem) (p : Path) :
  (denied fs !! p = None /\ is_dir fs p = false /\ open_w fs p = IO [] (Ok tt))
  \/ (~ (denied fs !! p = None /\ is_dir fs p = false)
      /\ exists e, open_w fs p = IO [] (Raise e)).
Proof.
  unfold open_w. destruct (denied fs !! p) as [e|].
  - right. split; [by intros [? _]|]. by exists e.
  - destruct (is_dir fs p).
    + right. split; [by intros [_ ?]|]. by eexists.
    + by left.
Qed.

Lemma main_when_readable (fs : filesystem) (a : args) :
  Forall (readable fs) (all_source_files fs a) ->
  writable fs (resolve a (output a)) ->
  main fs a
  = IO (all_diagnostics Gene fs (resolve a (gene_file a))
        ++ all_diagnostics Term fs (resolve a (term_dir a))
        ++ all_diagnostics Triple fs (resolve a (edge_dir a))
        ++ [written_line a])
       (Ok (resolve a (output a),
            json_dump (build_knowledge_graph
                         (all_entities Gene fs (resolve a (gene_file a)))
                         (all_entities Term fs (resolve a (term_dir a)))
                         (all_entities Triple fs (resolve a (edge_dir a)))))).
Proof.
  unfold all_source_files. rewrite !Forall_app.
  intros (Hg & Ht & He) (Hd1 & Hf & Hd2 & Hdir).
  rewrite main_unfold.
  rewrite (load_when_readable Gene fs _ Hg), (load_when_readable Term fs _ Ht),
    (load_when_readable Triple fs _ He).
  unfold mkdir, open_w. rewrite Hd1, Hf, Hd2, Hdir.
  unfold mbind, io_bind, mret, io_ret, print. cbn [stdout outcome app].
  reflexivity.
Qed.

Lemma main_ok_readable (fs : filesystem) (a : args) (log : list string)
      (v : Path * string) :
  main fs a = IO log (Ok v) ->
  Forall (readable fs) (all_source_files fs a)
  /\ writable fs (resolve a (output a)).
Proof.
  rewrite main_unfold. intros H. unfold all_source_files. rewrite !Forall_app.
  destruct (load Gene fs (resolve a (gene_file a))) as [lg [g|eg]] eqn:Eg;
    [|discriminate H].
  destruct (load Term fs (resolve a (term_dir a))) as [lt [t|et]] eqn:Et;
    [|discriminate H].
  destruct (load Triple fs (resolve a (edge_dir a))) as [le [e|ee]] eqn:Ee;
    [|discriminate H].
  rewrite !bind_ok in H.
  destruct (mkdir_cases fs (parent (resolve a (output a))))
    as [(Hd1 & Hf & Hm)|(_ & em & Hm)]; rewrite Hm in H;
    [|rewrite bind_raised in H; discriminate H].
  rewrite bind_ok in H.
  destruct (open_w_cases fs (resolve a (output a)))
    as [(Hd2 & Hdir & Ho)|(_ & eo & Ho)]; rewrite Ho in H;
    [|rewrite bind_raised in H; discriminate H].
  split; [|done].
  repeat split; eapply load_ok_readable; eassumption.
Qed.


Example output_is_a_directory :
  main demo_fs output_on_directory
  = IO ["Skipping invalid gene row #2 in data/gene_node/Gene.nodes.csv: Gene row is missing required 'label' column";
        "Skipping invalid term row #1 in data/term_node/b.csv: Term row is missing required 'label' column";
        "Skipping invalid edge row #1 in data/term_gene_edge/edges.csv: Edge row is missing required 'source_label', 'relation', or 'target_label' column"]
       (Raise (OSError ["data"; "term_node"])).
Proof. vm_compute. reflexivity. Qed.

Example output_below_a_file :
  outcome (main demo_fs
             (Args ["data"] ["gene_node"; "Gene.nodes.csv"] ["term_node"]
                   ["term_gene_edge"] ["term_node"; "a.csv"; "kg.json"]))
  = Raise (OSError ["data"; "term_node"; "a.csv"]).
Proof. vm_compute. reflexivity. Qed.

(** X7: when [main] returns, it has written to the resolved output path the
    dump of the payload built from the entities of the accepted rows, and the
    lines it printed are the diagnostics of the gene file, of the term files
    and of the edge files, in that order, followed by the line that names the
    output path. *)
Theorem main_output (fs : filesystem) (a : args) (log : list string)
        (out : Path) (text : string) :
  main fs a = IO log (Ok (out, text)) ->
  out = resolve a (output a)
  /\ text = json_dump (build_knowledge_graph
                         (all_entities Gene fs (resolve a (gene_file a)))
                         (all_entities Term fs (resolve a (term_dir a)))
                         (all_entities Triple fs (resolve a (edge_dir a))))
  /\ log = all_diagnostics Gene fs (resolve a (gene_file a))
           ++ all_diagnostics Term fs (resolve a (term_dir a))
           ++ all_diagnostics Triple fs (resolve a (edge_dir a))
           ++ [written_line a].
Proof.
  intros H. pose proof (main_ok_readable fs a log _ H) as [Hread Hw].
  rewrite (main_when_readable fs a Hread Hw) in H.
  injection H as <- <- <-. done.
Qed.

Lemma demo_main_returns :
  exists text,
    main demo_fs default_args
    = IO (stdout (main demo_fs default_args)) (Ok (["data"; "compact_kg.json"], text)).
Proof. eexists. vm_compute. reflexivity. Qed.

Lemma main_output_witness :
  exists text,
    main demo_fs default_args
    = IO (stdout (main demo_fs default_args)) (Ok (["data"; "compact_kg.json"], text))
    /\ ["data"; "compact_kg.json"] = resolve default_args (output default_args).
Proof.
  destruct demo_main_returns as [text H]. exists text.
  split; [exact H|]. exact (proj1 (main_output demo_fs default_args _ _ _ H)).
Defined.

(** X8: when [main] returns, every row of every file it read is either
    counted in the document or reported on the console: the three counts of
    the written payload and the printed lines, the last one apart, add up to
    the number of rows. *)
Theorem main_accounts_for_rows (fs : filesystem) (a : args) (log : list string)
        (out : Path) (text : string) :
  main fs a = IO log (Ok (out, text)) ->
  exists payload (n_genes n_terms n_triples : nat),
    text = json_dump payload
    /\ count payload "genes" = Some (JInt (Z.of_nat n_genes))
    /\ count payload "terms" = Some (JInt (Z.of_nat n_terms))
    /\ count payload "triples" = Some (JInt (Z.of_nat n_triples))
    /\ n_genes + n_terms + n_triples + length log
       = S (length (concat (rows_of fs <$> all_source_files fs a))).
Proof.
  intros H. pose proof (main_ok_readable fs a log _ H) as [Hread Hw].
  rewrite (main_when_readable fs a Hread Hw) in H.
  injection H as <- _ <-.
  eexists _, _, _, _. split; [reflexivity|].
  rewrite build_knowledge_graph_eq. unfold count. cbn [getitem].
  rewrite !decide_True by done. cbn [getitem].
  rewrite decide_True by done.
  rewrite decide_False, decide_True by done.
  rewrite !decide_False, decide_True by done.
  split; [reflexivity|]. split; [reflexivity|]. split; [reflexivity|].
  unfold all_source_files. rewrite !fmap_app, !concat_app, !length_app.
  pose proof (files_accounted Gene fs (resolve a (gene_file a))).
  pose proof (files_accounted Term fs (resolve a (term_dir a))).
  pose proof (files_accounted Triple fs (resolve a (edge_dir a))).
  change (length [written_line a]) with 1. cbn [entity] in *. lia.
Qed.

Lemma main_accounts_for_rows_witness :
  exists text,
    main demo_fs default_args
    = IO (stdout (main demo_fs default_args)) (Ok (["data"; "compact_kg.json"], text))
    /\ exists payload (n_genes n_terms n_triples : nat),
         text = json_dump payload
         /\ count payload "genes" = Some (JInt (Z.of_nat n_genes))
         /\ count payload "terms" = Some (JInt (Z.of_nat n_terms))
         /\ count payload "triples" = Some (JInt (Z.of_nat n_triples))
         /\ n_genes + n_terms + n_triples + length (stdout (main demo_fs default_args))
            = S (length (concat (rows_of demo_fs <$> all_source_files demo_fs default_args))).
Proof.
  destruct demo_main_returns as [text H]. exists text.
  split; [exact H|]. exact (main_accounts_for_rows demo_fs default_args _ _ _ H).
Defined.









(** X10: a path argument that is absolute, with the root [/] or the root
    [//], is used as it is: when the gene file, the two directories and the
    output are all given as absolute paths, the data root has no effect on
    the run. *)
Theorem main_absolute_paths (fs : filesystem) (root root' gene terms edges out : Path) :
  is_absolute gene = true ->
  is_absolute terms = true ->
  is_absolute edges = true ->
  is_absolute out = true ->
  main fs (Args root gene terms edges out) = main fs (Args root' gene terms edges out).
Proof.
  intros Hg Ht He Ho. rewrite !main_unfold.
  unfold written_line, resolve. cbn [gene_file term_dir edge_dir output data_root].
  by rewrite Hg, Ht, He, Ho.
Qed.

Lemma main_absolute_paths_witness :
  is_absolute (gene_file absolute_args) = true
  /\ is_absolute (output absolute_args) = true
  /\ main demo_fs absolute_args
     = main demo_fs (Args ["data"] (gene_file absolute_args) (term_dir absolute_args)
                          (edge_dir absolute_args) (output absolute_args)).
Proof.
  split; [reflexivity|]. split; [reflexivity|].
  apply (main_absolute_paths demo_fs ["elsewhere"] ["data"]); reflexivity.
Defined.

Example double_slash_root :
  is_absolute ["//"; "srv"; "kg.json"] = true
  /\ path_str ["//"; "srv"; "kg.json"] = "//srv/kg.json"
  /\ path_str ["/"; "srv"; "kg.json"] = "/srv/kg.json"
  /\ parent ["//"; "srv"; "kg.json"] = ["//"; "srv"]
  /\ parent ["kg.json"] = [] /\ parent ["/"] = ["/"].
Proof. vm_compute. done. Qed.

(** ** String literals of the written text *)

Lemma escape_char_plain (c : ascii) : plain c = true -> escape_char c = String c "".
Proof.
  destruct c as [[] [] [] [] [] [] [] []]; intros H; vm_compute in H;
    try discriminate H; vm_compute; reflexivity.
Qed.

Lemma escape_plain (s : string) :
  forallb plain (list_ascii_of_string s) = true -> escape s = s.
Proof.
  induction s as [|c s IH]; [done|].
  cbn [list_ascii_of_string forallb escape]. intros [Hc Hs]%andb_true_iff.
  rewrite (escape_char_plain c Hc), (IH Hs). reflexivity.
Qed.

(** X11: a text made of printable characters other than the quote and the
    backslash is written between two quotes as it is; every byte from 0x80
    on counts as printable, so text outside ASCII is not escaped. *)
Theorem encode_basestring_verbatim (s : string) :
  forallb plain (list_ascii_of_string s) = true ->
  encode_basestring s = String dquote (s +:+ String dquote "").
Proof. intros H. unfold encode_basestring. by rewrite (escape_plain s H). Qed.

Lemma encode_basestring_verbatim_witness :
  forallb plain (list_ascii_of_string "Gène β-1 (TP53)") = true
  /\ encode_basestring "Gène β-1 (TP53)"
     = String dquote ("Gène β-1 (TP53)" +:+ String dquote "").
Proof.
  assert (H : forallb plain (list_ascii_of_string "Gène β-1 (TP53)") = true)
    by (vm_compute; reflexivity).
  split; [exact H|]. exact (encode_basestring_verbatim _ H).
Defined.

Lemma read_escaped_escape (c : ascii) (rest : string) :
  read_escaped (escape_char c +:+ rest) = Some (c, rest).
Proof. destruct c as [[] [] [] [] [] [] [] []]; reflexivity. Qed.

Lemma escape_inj (s1 s2 : string) : escape s1 = escape s2 -> s1 = s2.
Proof.
  revert s2. induction s1 as [|c1 s1 IH]; intros [|c2 s2] H.
  - done.
  - apply (f_equal read_escaped) in H. cbn [escape] in H.
    rewrite read_escaped_escape in H. discriminate H.
  - apply (f_equal read_escaped) in H. cbn [escape] in H.
    rewrite read_escaped_escape in H. discriminate H.
  - apply (f_equal read_escaped) in H. cbn [escape] in H.
    rewrite !read_escaped_escape in H. injection H as -> H.
    f_equal. by apply IH.
Qed.

Lemma list_ascii_of_append (s t : string) :
  list_ascii_of_string (s +:+ t) = list_ascii_of_string s ++ list_ascii_of_string t.
Proof.
  induction s as [|c s IH]; [done|].
  change (String c s +:+ t) with (String c (s +:+ t)).
  cbn [list_ascii_of_string]. by rewrite IH.
Qed.

Lemma append_inj_r (s1 s2 t : string) : s1 +:+ t = s2 +:+ t -> s1 = s2.
Proof.
  intros H. apply (f_equal list_ascii_of_string) in H.
  rewrite !list_ascii_of_append in H. apply app_inv_tail in H.
  rewrite <- (string_of_list_ascii_of_string s1), <- (string_of_list_ascii_of_string s2).
  by rewrite H.
Qed.

(** X12: escaping loses nothing: two different texts are never written as
    the same string literal. *)
Theorem encode_basestring_distinct (s1 s2 : string) :
  s1 <> s2 -> encode_basestring s1 <> encode_basestring s2.
Proof.
  intros Hne H. apply Hne. unfold encode_basestring in H.
  injection H as H. by apply escape_inj, append_inj_r with (String dquote "").
Qed.

Lemma encode_basestring_distinct_witness :
  String "a" (String "010" "b") <> "a\nb"
  /\ encode_basestring (String "a" (String "010" "b")) <> encode_basestring "a\nb".
Proof.
  assert (H : String "a" (String "010" "b") <> "a\nb") by discriminate.
  split; [exact H|]. exact (encode_basestring_distinct _ _ H).
Defined.

(** ** The ranked-list script *)

Section RankedListFacts.
Variable strip : string -> string.
Variable DictReader : string -> list row.









End RankedListFacts.

Example demo_parse_all :
  parse_gene_symbols strip_spaces (fun _ => demo_catalog) "" false
  = IO ["[INFO] Parsed 2 genes (all Approved) from 4 rows."] (Ok ["TP53"; "MIR21"]).
Proof. vm_compute. reflexivity. Qed.

Example demo_parse_coding :
  parse_gene_symbols strip_spaces (fun _ => demo_catalog) "" true
  = IO ["[INFO] Parsed 1 genes (protein-coding only) from 4 rows."] (Ok ["TP53"]).
Proof. vm_compute. reflexivity. Qed.

(** ** More on the loaders *)

Lemma diagnostics_elem (k : kind) (f : Path) (rows : list row) :
  forall (idx : nat) (line : string),
    line ∈ diagnostics k f idx rows
    <-> exists (i : nat) (r : row),
          rows !! i = Some r
          /\ from_row k r = Raise (ValueError (missing k))
          /\ line = skip_message (kind_word k) (idx + i) f (missing k).
Proof.
  induction rows as [|r rows IH]; intros idx line.
  - split; [by intros ?%elem_of_nil|]. by intros (i & r & ? & _).
  - rewrite diagnostics_cons, elem_of_app, IH. split.
    + intros [H|(i & r' & Hi & Hr & ->)].
      * exists 0, r. simpl in H. destruct (from_row k r) as [e|e] eqn:E;
          [by apply elem_of_nil in H|].
        rewrite (from_row_raise k r e E) in *.
        apply list_elem_of_singleton in H as ->. by rewrite Nat.add_0_r.
      * exists (S i), r'. by rewrite Nat.add_succ_r.
    + intros ([|i] & r' & Hi & Hr & ->).
      * left. injection Hi as <-. simpl. rewrite Hr, Nat.add_0_r. by left.
      * right. exists i, r'. by rewrite Nat.add_succ_r.
Qed.

Lemma elem_of_concat_iff {A} (x : A) (ls : list (list A)) :
  x ∈ concat ls <-> exists l, x ∈ l /\ l ∈ ls.
Proof.
  induction ls as [|l ls IH]; simpl.
  - split; [by intros ?%elem_of_nil|]. by intros (l & _ & ?%elem_of_nil).
  - rewrite elem_of_app, IH. split.
    + intros [H|(l' & H & Hl')]; [exists l; split; [done|by left]|].
      exists l'. split; [done|by right].
    + intros (l' & H & [->|Hl']%elem_of_cons); [by left|]. right. eauto.
Qed.

(** X16: when a loader returns, the lines it has printed are exactly the
    reports of the rejected rows: one for each rejected row of each file it
    read, naming the file and the number of the row counted from 1 within
    that file. *)
Theorem load_reports_rejected_rows (k : kind) (fs : filesystem) (p : Path)
        (log : list string) (ents : list (entity k)) :
  load k fs p = IO log (Ok ents) ->
  forall line,
    line ∈ log
    <-> exists (f : Path) (i : nat) (r : row),
          f ∈ source_files k fs p
          /\ rows_of fs f !! i = Some r
          /\ (exists msg, from_row k r = Raise (ValueError msg))
          /\ line = skip_message (kind_word k) (S i) f (missing k).
Proof.
  intros H line. pose proof (load_ok_readable k fs p log ents H) as Hread.
  rewrite (load_when_readable k fs p Hread) in H. injection H as <- _.
  unfold all_diagnostics. rewrite elem_of_concat_iff. split.
  - intros (l & Hline & Hl). apply list_elem_of_fmap in Hl as (f & -> & Hf).
    apply diagnostics_elem in Hline as (i & r & Hi & Hr & ->).
    exists f, i, r. eauto.
  - intros (f & i & r & Hf & Hi & [msg Hr] & ->).
    exists (diagnostics k f 1 (rows_of fs f)). split.
    + apply diagnostics_elem. exists i, r. split; [done|]. split; [|done].
      by rewrite (from_row_raise k r _ Hr) in Hr.
    + apply list_elem_of_fmap. eauto.
Qed.

Lemma load_reports_rejected_rows_witness :
  load Gene demo_fs demo_gene_path
  = IO ["Skipping invalid gene row #2 in data/gene_node/Gene.nodes.csv: Gene row is missing required 'label' column"]
       (Ok [GeneNode.mk "TP53"; GeneNode.mk "BRCA1"])
  /\ exists (f : Path) (i : nat) (r : row),
       f ∈ source_files Gene demo_fs demo_gene_path
       /\ rows_of demo_fs f !! i = Some r
       /\ (exists msg, from_row Gene r = Raise (ValueError msg))
       /\ "Skipping invalid gene row #2 in data/gene_node/Gene.nodes.csv: Gene row is missing required 'label' column"
          = skip_message (kind_word Gene) (S i) f (missing Gene).
Proof.
  assert (H : load Gene demo_fs demo_gene_path
    = IO ["Skipping invalid gene row #2 in data/gene_node/Gene.nodes.csv: Gene row is missing required 'label' column"]
         (Ok [GeneNode.mk "TP53"; GeneNode.mk "BRCA1"]))
    by (vm_compute; reflexivity).
  split; [exact H|].
  apply (load_reports_rejected_rows Gene demo_fs demo_gene_path _ _ H). by left.
Defined.

Lemma filter_Forall_id {A} (P : A -> Prop) `{forall x, Decision (P x)} (l : list A) :
  Forall P l -> filter P l = l.
Proof.
  induction 1 as [|x l Hx _ IH]; [done|].
  by rewrite filter_cons_True, IH.
Qed.

Lemma StronglySorted_filter {A} (R : relation A) (P : A -> Prop)
      `{forall x, Decision (P x)} (l : list A) :
  StronglySorted R l -> StronglySorted R (filter P l).
Proof.
  induction 1 as [|x l _ IH Hx]; [constructor|].
  rewrite filter_cons. destruct (decide (P x)); [|done].
  constructor; [done|]. apply Forall_forall. intros y Hy.
  apply list_elem_of_filter in Hy as [_ Hy].
  rewrite Forall_forall in Hx. by apply Hx.
Qed.

Lemma concat_sublist {A} (ls1 ls2 : list (list A)) :
  sublist ls1 ls2 -> sublist (concat ls1) (concat ls2).
Proof.
  induction 1 as [|l ls1 ls2 _ IH|l ls1 ls2 _ IH]; simpl.
  - constructor.
  - by apply sublist_app.
  - by apply sublist_inserts_l.
Qed.

(** The names read before a file is added are the names read after it,
    the new one left out. *)
Lemma csv_names_add (names : list string) (new : string) :
  new ∉ names ->
  csv_names names = filter (fun n => n <> new) (csv_names (names ++ [new])).
Proof.
  intros Hnew. apply (Sorted_unique String.le).
  - apply csv_names_Sorted.
  - apply StronglySorted_Sorted, StronglySorted_filter, Sorted_StronglySorted;
      [apply _|apply csv_names_Sorted].
  - rewrite !csv_names_Permutation, filter_app, filter_app.
    assert (filter (fun n => n <> new)
              (filter (fun name : string => ends_with ".csv" name) [new]) = []) as ->.
    { rewrite filter_cons, filter_nil. destruct (decide _); [|done].
      by rewrite filter_cons_False by auto. }
    rewrite app_nil_r, (filter_Forall_id (fun n => n <> new)); [done|].
    apply Forall_forall. intros n [_ Hn]%list_elem_of_filter. congruence.
Qed.

(** X17: adding a file that reads to its end never removes or reorders
    what a directory loader returned before: when such a file is added to the
    directory under a name that was not there, the loader still returns, and
    the entities returned before are a sublist of the entities returned
    after. *)
Theorem load_after_adding_file (k : kind) (fs : filesystem) (dir : Path)
        (names : list string) (new : string) (rows : list row) :
  k <> Gene ->
  dirs fs !! dir = Some names ->
  new ∉ names ->
  Forall (fun name => readable fs (dir ++ [name])) (csv_names names) ->
  exists before after,
    outcome (load k fs dir) = Ok before
    /\ outcome (load k (FS (<[dir := names ++ [new]]> (dirs fs))
                           (<[dir ++ [new] := rows]> (csvs fs))
                           (torn fs) (denied fs)) dir)
       = Ok after
    /\ sublist before after.
Proof.
  intros Hk Hdir Hnew Hread. set (fs' := FS _ _ _ _).
  assert (Hother : forall n, n <> new ->
            csvs fs' !! (dir ++ [n]) = csvs fs !! (dir ++ [n])).
  { intros n Hn. cbn [csvs fs']. apply lookup_insert_ne.
    intros E. apply app_inv_head in E. congruence. }
  exists (concat (segment k fs dir <$> csv_names names)),
    (concat (segment k fs' dir <$> csv_names (names ++ [new]))).
  split; [by apply load_directory|]. split.
  - apply load_directory; [done|cbn [dirs fs']; apply lookup_insert_eq|].
    apply Forall_forall. intros n Hn. unfold readable.
    destruct (decide (n = new)) as [->|Hne].
    + cbn [csvs fs']. rewrite lookup_insert_eq. by eexists.
    + rewrite (Hother n Hne). rewrite Forall_forall in Hread. apply Hread.
      rewrite (csv_names_add names new Hnew). by apply list_elem_of_filter.
  - apply concat_sublist. rewrite (csv_names_add names new Hnew).
    assert (segment k fs dir <$> filter (fun n => n <> new) (csv_names (names ++ [new]))
            = segment k fs' dir <$> filter (fun n => n <> new) (csv_names (names ++ [new])))
      as ->.
    { apply Forall_fmap_ext_1, Forall_forall.
      intros n [Hne _]%list_elem_of_filter.
      unfold segment, rows_of. by rewrite (Hother n Hne). }
    apply fmap_sublist, sublist_filter.
Qed.

Lemma load_after_adding_file_witness :
  exists before after,
    outcome (load Term demo_fs demo_term_dir) = Ok before
    /\ outcome (load Term
                  (FS (<[demo_term_dir := ["b.csv"; "notes.txt"; "a.csv"] ++ ["ab.csv"]]>
                         (dirs demo_fs))
                      (<[demo_term_dir ++ ["ab.csv"] := [ {[ "label" := Some "GO:003" ]} ] ]>
                         (csvs demo_fs))
                      (torn demo_fs) (denied demo_fs))
                  demo_term_dir)
       = Ok after
    /\ sublist before after.
Proof.
  apply (load_after_adding_file Term demo_fs demo_term_dir).
  - discriminate.
  - vm_compute. reflexivity.
  - intros H. repeat (apply elem_of_cons in H as [H|H]; [discriminate H|]).
    by apply elem_of_nil in H.
  - replace (csv_names ["b.csv"; "notes.txt"; "a.csv"]) with ["a.csv"; "b.csv"]
      by (vm_compute; reflexivity).
    repeat constructor; by eexists.
Defined.

Example demo_added_file :
  outcome (load Term
             (FS (<[demo_term_dir := ["b.csv"; "notes.txt"; "a.csv"] ++ ["ab.csv"]]>
                    (dirs demo_fs))
                 (<[demo_term_dir ++ ["ab.csv"] := [ {[ "label" := Some "GO:003" ]} ] ]>
                    (csvs demo_fs))
                 (torn demo_fs) (denied demo_fs))
             demo_term_dir)
  = Ok [TermNode.mk "GO:001"; TermNode.mk "GO:003"; TermNode.mk "GO:002"].
Proof. vm_compute. reflexivity. Qed.
